(** * 3D editing tools of the instances editor

    A shallow embedding of the three classes of
    [newIDE/app/src/InstancesEditor]:

    - [Gizmo3DController]   (Gizmo3DController.js),
    - [SelectedInstances3D] (SelectedInstances3D.js),
    - [FreeCameraController] (FreeCameraController.js),

    followed by the properties that the specification states about them.

    Conventions of the embedding.

    - A JavaScript [number] is a real number: rounding of binary64
      arithmetic is not modelled.  [Math.PI] is [PI].
    - A JavaScript object that is mutated and shared (a scene node, a
      domain instance) is a reference (a [nat]) into a store; the
      methods take the store and return the new one.
    - A method is a function from the receiver's state to its new state;
      fields keep the names they have in the source.
    - A call that can throw ends in a [Completion]; a method that can
      throw gives the state it leaves and the exception, if any. *)

From Stdlib Require Import Reals Lra List Bool Arith ZArith String.
Import ListNotations.

Set Implicit Arguments.
Local Open Scope R_scope.

(** Functional update of a store indexed by references. *)
Definition upd {A : Type} (f : nat -> A) (k : nat) (v : A) : nat -> A :=
fun k' => if Nat.eqb k' k then v else f k'.

(** The three transform modes, ['translate' | 'rotate' | 'scale']. *)
Inductive Mode := translate | rotate | scale.

(** The two coordinate spaces of the widget, ['local' | 'world']. *)
Inductive Space := local | world.

(** The exceptions of JavaScript this code can raise. *)
Inductive Error := TypeError.

(** How a call ends: it returns a value, or it throws. *)
Inductive Completion (A : Type) :=
| Returns (a : A)
| Throws (e : Error).

Arguments Returns {A} a.
Arguments Throws {A} e.

(** The string a mode is in the source. *)
Definition mode_string (m : Mode) : string :=
match m with
| translate => "translate"%string
| rotate => "rotate"%string
| scale => "scale"%string
end.

(** ** The parts of three.js the editor relies on *)
Module THREE.

Record Vector3 := mkVector3 { x : R; y : R; z : R }.

(** A scene node.  What the editor reads of a node's place in the scene
    graph is its identity ([===]) and its chain of parents. *)
#[warnings="-register-all"]
Inductive Object3D := mkObject3D { uuid : nat; parent : option Object3D }.

(** [a === b] on scene nodes. *)
Definition same (a b : Object3D) : bool := Nat.eqb (uuid a) (uuid b).

(** [object.userData], as far as the gizmo writes it: the pending-edit
    flag and the snapshot of the transform.  A property that was never
    written is [undefined]: [false] for the flag, [None] for a snapshot. *)
Module UserData.
Record t := mk {
  needsUpdate : bool;
  position : option Vector3;
  rotation : option Vector3;
  scale : option Vector3 }.
Definition empty : t := mk false None None None.
End UserData.

(** The mutable part of a scene node. *)
Module Node.
Record t := mk {
  position : Vector3;
  rotation : Vector3;
  scale : Vector3;
  userData : UserData.t }.
End Node.

(** The scene nodes, by [uuid]. *)
Definition Nodes := nat -> Node.t.

(** The events of the transform widget the gizmo listens to. *)
Inductive ControlsEvent := change | objectChange.

Definition event_eqb (a b : ControlsEvent) : bool :=
match a, b with
| change, change | objectChange, objectChange => true
| _, _ => false
end.

(** [TransformControls] of three/examples/jsm, the third-party transform
    widget the gizmo wraps. *)
Module TransformControls.

(** Modelled from the spec: the widget's source is not part of the
    repository.  The record has the properties Gizmo3DController.js
    reads or writes ([object] is the attached node, one at most), its
    registered listeners and whether it was disposed of.  The widget
    has the methods [setMode], [setSize], [setSpace], [attach],
    [detach], [addEventListener], [removeEventListener] and
    [dispose], plain setters of these properties; it has no
    [getSpace]. *)
Record t := mk {
  object : option Object3D;
  mode : Mode;
  space : Space;
  size : R;
  enabled : bool;
  visible : bool;
  dragging : bool;
  listeners : list ControlsEvent;
  disposed : bool }.

(** [new TransformControls(camera, domElement)]: the library defaults. *)
Definition new : t := mk None translate world 1 true false false [] false.

Definition setMode (m : Mode) (c : t) : t :=
mk (object c) m (space c) (size c) (enabled c) (visible c) (dragging c)
   (listeners c) (disposed c).

Definition setSize (v : R) (c : t) : t :=
mk (object c) (mode c) (space c) v (enabled c) (visible c) (dragging c)
   (listeners c) (disposed c).

Definition setSpace (sp : Space) (c : t) : t :=
mk (object c) (mode c) sp (size c) (enabled c) (visible c) (dragging c)
   (listeners c) (disposed c).

(** [controls.getSpace()]: the widget has no such member, and the call
    of what is not a function throws a [TypeError]. *)
Definition getSpace (c : t) : Completion Space := Throws TypeError.

Definition set_enabled (b : bool) (c : t) : t :=
mk (object c) (mode c) (space c) (size c) b (visible c) (dragging c)
   (listeners c) (disposed c).

Definition set_visible (b : bool) (c : t) : t :=
mk (object c) (mode c) (space c) (size c) (enabled c) b (dragging c)
   (listeners c) (disposed c).

Definition set_dragging (b : bool) (c : t) : t :=
mk (object c) (mode c) (space c) (size c) (enabled c) (visible c) b
   (listeners c) (disposed c).

(** [attach(object)]: the widget takes the node and shows itself. *)
Definition attach (o : Object3D) (c : t) : t :=
mk (Some o) (mode c) (space c) (size c) (enabled c) true (dragging c)
   (listeners c) (disposed c).

(** [detach()]: the widget drops its node and hides itself. *)
Definition detach (c : t) : t :=
mk None (mode c) (space c) (size c) (enabled c) false (dragging c)
   (listeners c) (disposed c).

(** [addEventListener(type, listener)], for the one listener this code
    registers per event type: registering twice has no effect. *)
Definition addEventListener (e : ControlsEvent) (c : t) : t :=
mk (object c) (mode c) (space c) (size c) (enabled c) (visible c)
   (dragging c)
   (if existsb (event_eqb e) (listeners c) then listeners c
    else listeners c ++ [e])
   (disposed c).

Definition removeEventListener (e : ControlsEvent) (c : t) : t :=
mk (object c) (mode c) (space c) (size c) (enabled c) (visible c)
   (dragging c)
   (filter (fun e' => negb (event_eqb e e')) (listeners c))
   (disposed c).

Definition dispose (c : t) : t :=
mk (object c) (mode c) (space c) (size c) (enabled c) (visible c)
   (dragging c) (listeners c) true.

Definition listens (e : ControlsEvent) (c : t) : bool :=
existsb (event_eqb e) (listeners c).

End TransformControls.

(** [THREE.Scene], as far as this code changes it: whether the
    transform widget is among its children. *)
Record Scene := mkScene { scene_id : nat; hasControls : bool }.

End THREE.

(** ** Gizmo3DController.js *)
Module Gizmo3DController.
Import THREE.

Record t := mk {
  _threeRenderer : nat;
  _threeCamera : nat;
  _threeScene : Scene;
  _transformControls : TransformControls.t;
  _currentObject : option Object3D;
  _currentMode : Mode;
  _isEnabled : bool }.

Definition with_controls (c : TransformControls.t) (g : t) : t :=
mk (_threeRenderer g) (_threeCamera g) (_threeScene g) c
   (_currentObject g) (_currentMode g) (_isEnabled g).

(** [constructor({ threeRenderer, threeCamera, threeScene, onObjectChanged })].
    The callback is the owner's; it is passed to [_onObjectChange] below. *)
Definition constructor (threeRenderer threeCamera : nat) (threeScene : Scene)
  : t :=
let c := TransformControls.new in
let c := TransformControls.setMode translate c in
let c := TransformControls.setSize 0.8 c in
let c := TransformControls.setSpace local c in
let c := TransformControls.addEventListener change c in
let c := TransformControls.addEventListener objectChange c in
mk threeRenderer threeCamera (mkScene (scene_id threeScene) true) c
   None translate false.

(** [_updateObject3DFromControls()]: flag the node and snapshot its
    transform in its [userData]. *)
Definition _updateObject3DFromControls (g : t) (nodes : Nodes) : Nodes :=
match _currentObject g with
| None => nodes
| Some o =>
    let n := nodes (uuid o) in
    let position := Node.position n in
    let rotation := Node.rotation n in
    let scale := Node.scale n in
    upd nodes (uuid o)
      (Node.mk position rotation scale
         (UserData.mk true
            (Some (mkVector3 (x position) (y position) (z position)))
            (Some (mkVector3 (x rotation) (y rotation) (z rotation)))
            (Some (mkVector3 (x scale) (y scale) (z scale)))))
end.

(** [_onControlsChange], the listener of the widget's ['change']. *)
Definition _onControlsChange (g : t) (nodes : Nodes) : Nodes :=
match _currentObject g with
| Some _ => _updateObject3DFromControls g nodes
| None => nodes
end.

(** [_onObjectChange], the listener of the widget's ['objectChange']:
    hand the current node and mode to the owner's callback, which acts
    on a state of type [W]. *)
Definition _onObjectChange {W : Type}
  (_onObjectChanged : Object3D -> string -> W -> W) (g : t) (w : W) : W :=
match _currentObject g with
| Some o => _onObjectChanged o (mode_string (_currentMode g)) w
| None => w
end.

(** [setObject(object)] *)
Definition setObject (object : option Object3D) (g : t) : t :=
let c := TransformControls.detach (_transformControls g) in
let c :=
  match object with
  | Some o => if _isEnabled g then TransformControls.attach o c else c
  | None => c
  end in
mk (_threeRenderer g) (_threeCamera g) (_threeScene g) c
   object (_currentMode g) (_isEnabled g).

(** [setMode(mode)] *)
Definition setMode (mode : Mode) (g : t) : t :=
mk (_threeRenderer g) (_threeCamera g) (_threeScene g)
   (TransformControls.setMode mode (_transformControls g))
   (_currentObject g) mode (_isEnabled g).

(** [toggleSpace()]: the state it leaves, and the exception it throws
    when [getSpace()] does. *)
Definition toggleSpace (g : t) : t * option Error :=
match TransformControls.getSpace (_transformControls g) with
| Returns currentSpace =>
    (with_controls
       (TransformControls.setSpace
          (match currentSpace with local => world | world => local end)
          (_transformControls g)) g,
     None)
| Throws e => (g, Some e)
end.

(** [setEnabled(enabled)] *)
Definition setEnabled (enabled : bool) (g : t) : t :=
let c := TransformControls.set_enabled enabled (_transformControls g) in
let c := TransformControls.set_visible enabled c in
let c :=
  if negb enabled then TransformControls.detach c
  else match _currentObject g with
       | Some o => TransformControls.attach o c
       | None => c
       end in
mk (_threeRenderer g) (_threeCamera g) (_threeScene g) c
   (_currentObject g) (_currentMode g) enabled.

(** [isDragging()] *)
Definition isDragging (g : t) : bool :=
TransformControls.dragging (_transformControls g).

(** [getCurrentMode()] *)
Definition getCurrentMode (g : t) : Mode := _currentMode g.

(** [dispose()] *)
Definition dispose (g : t) : t :=
let c := TransformControls.removeEventListener change (_transformControls g) in
let c := TransformControls.removeEventListener objectChange c in
let c := TransformControls.dispose c in
mk (_threeRenderer g) (_threeCamera g)
   (mkScene (scene_id (_threeScene g)) false) c
   (_currentObject g) (_currentMode g) (_isEnabled g).

(** The node the transform widget is attached to, [None] when detached. *)
Definition attached (g : t) : option Object3D :=
TransformControls.object (_transformControls g).

End Gizmo3DController.

(** ** The domain model's instance *)

Module gdInitialInstance.

(** The members SelectedInstances3D.js checks the presence of before it
    uses them. *)
Inductive Optional :=
| hasCustomSize | setZ | getDepth | setAngle | setRotationX | setRotationY
| _getOriginalWidth | _getOriginalHeight | setDepth | _getOriginalDepth.

(** Modelled from the spec: [gdInitialInstance] is declared outside the
    three files.  The record has the properties behind the members
    SelectedInstances3D.js uses.  [setX], [setY], [setWidth],
    [setHeight], [getWidth] and [getHeight] are called without a check
    and are always there; [has] tells which of the [Optional] members
    this instance exposes.  A getter answers the property it names (the
    getter of an optional member is written with a trailing
    underscore), a setter stores its argument in it. *)
Record t := mk {
  X : R; Y : R; Z : R;
  Width : R; Height : R; Depth : R;
  Angle : R; RotationX : R; RotationY : R;
  OriginalWidth : R; OriginalHeight : R; OriginalDepth : R;
  has : Optional -> bool }.

Definition getWidth (i : t) : R := Width i.
Definition getHeight (i : t) : R := Height i.
Definition getDepth_ (i : t) : R := Depth i.
Definition _getOriginalWidth_ (i : t) : R := OriginalWidth i.
Definition _getOriginalHeight_ (i : t) : R := OriginalHeight i.
Definition _getOriginalDepth_ (i : t) : R := OriginalDepth i.

Inductive Setter :=
| SetX | SetY | SetZ | SetAngle | SetRotationX | SetRotationY
| SetWidth | SetHeight | SetDepth.

Definition set (m : Setter) (v : R) (i : t) : t :=
match m with
| SetX => mk v (Y i) (Z i) (Width i) (Height i) (Depth i) (Angle i)
    (RotationX i) (RotationY i) (OriginalWidth i) (OriginalHeight i)
    (OriginalDepth i) (has i)
| SetY => mk (X i) v (Z i) (Width i) (Height i) (Depth i) (Angle i)
    (RotationX i) (RotationY i) (OriginalWidth i) (OriginalHeight i)
    (OriginalDepth i) (has i)
| SetZ => mk (X i) (Y i) v (Width i) (Height i) (Depth i) (Angle i)
    (RotationX i) (RotationY i) (OriginalWidth i) (OriginalHeight i)
    (OriginalDepth i) (has i)
| SetWidth => mk (X i) (Y i) (Z i) v (Height i) (Depth i) (Angle i)
    (RotationX i) (RotationY i) (OriginalWidth i) (OriginalHeight i)
    (OriginalDepth i) (has i)
| SetHeight => mk (X i) (Y i) (Z i) (Width i) v (Depth i) (Angle i)
    (RotationX i) (RotationY i) (OriginalWidth i) (OriginalHeight i)
    (OriginalDepth i) (has i)
| SetDepth => mk (X i) (Y i) (Z i) (Width i) (Height i) v (Angle i)
    (RotationX i) (RotationY i) (OriginalWidth i) (OriginalHeight i)
    (OriginalDepth i) (has i)
| SetAngle => mk (X i) (Y i) (Z i) (Width i) (Height i) (Depth i) v
    (RotationX i) (RotationY i) (OriginalWidth i) (OriginalHeight i)
    (OriginalDepth i) (has i)
| SetRotationX => mk (X i) (Y i) (Z i) (Width i) (Height i) (Depth i)
    (Angle i) v (RotationY i) (OriginalWidth i) (OriginalHeight i)
    (OriginalDepth i) (has i)
| SetRotationY => mk (X i) (Y i) (Z i) (Width i) (Height i) (Depth i)
    (Angle i) (RotationX i) v (OriginalWidth i) (OriginalHeight i)
    (OriginalDepth i) (has i)
end.

End gdInitialInstance.

(** ** SelectedInstances3D.js *)
Module SelectedInstances3D.
Import THREE.

(** What the handler of a completed edit does to the outside: a call of
    a setter of an instance, or a call of [onInstanceTransformed]. *)
Inductive Effect :=
| Invoke (instance : nat) (m : gdInitialInstance.Setter) (v : R)
| Transformed (instance : nat) (transformType : string).

(** The objects shared with the rest of the editor: the scene nodes, the
    instances, and the calls made so far (oldest first). *)
Record World := mkWorld {
  nodes : Nodes;
  instances : nat -> gdInitialInstance.t;
  calls : list Effect }.

(** [instance.m(v)] *)
Definition invoke (instance : nat) (m : gdInitialInstance.Setter) (v : R)
  (w : World) : World :=
mkWorld (nodes w)
  (upd (instances w) instance (gdInitialInstance.set m v (instances w instance)))
  (calls w ++ [Invoke instance m v]).

(** [this._onInstanceTransformed(instance, transformType)] *)
Definition onInstanceTransformed (instance : nat) (transformType : string)
  (w : World) : World :=
mkWorld (nodes w) (instances w) (calls w ++ [Transformed instance transformType]).

(** [object.userData.needsUpdate = false] *)
Definition clearNeedsUpdate (object : Object3D) (w : World) : World :=
let n := nodes w (uuid object) in
let u := Node.userData n in
mkWorld
  (upd (nodes w) (uuid object)
     (Node.mk (Node.position n) (Node.rotation n) (Node.scale n)
        (UserData.mk false (UserData.position u) (UserData.rotation u)
           (UserData.scale u))))
  (instances w) (calls w).

(** A [Map<gdInitialInstance, THREE.Object3D>]: its entries in insertion
    order, which is the order a [for ... of] visits them in. *)
Definition InstanceMap := list (nat * Object3D).

(** [map.get(instance)] *)
Fixpoint Map_get (map : InstanceMap) (instance : nat) : option Object3D :=
match map with
| [] => None
| (k, obj) :: rest => if Nat.eqb k instance then Some obj else Map_get rest instance
end.

Record Props := mkProps {
  threeRenderer : option nat;
  threeCamera : option nat;
  threeScene : option Scene }.

Record t := mk {
  _gizmoController : option Gizmo3DController.t;
  _selectedInstances : list nat;
  _instanceToObjectMap : InstanceMap;
  _currentMode : Mode;
  _enabled : bool }.

(** [constructor({ threeRenderer, threeCamera, threeScene, onInstanceTransformed })] *)
Definition constructor (p : Props) : t :=
mk (match threeRenderer p, threeCamera p, threeScene p with
    | Some r, Some c, Some sc => Some (Gizmo3DController.constructor r c sc)
    | _, _, _ => None
    end)
   [] [] translate false.

(** [_isChildOf(child, parent)]: walk up from [child.parent]. *)
Fixpoint _isChildOf (child parent : Object3D) : bool :=
match THREE.parent child with
| None => false
| Some current => if same current parent then true else _isChildOf current parent
end.

(** [obj === object || obj.parent === object || this._isChildOf(obj, object)] *)
Definition matches (obj object : Object3D) : bool :=
same obj object
|| match THREE.parent obj with Some p => same p object | None => false end
|| _isChildOf obj object.

Fixpoint find_entry (entries : InstanceMap) (object : Object3D) : option nat :=
match entries with
| [] => None
| (instance, obj) :: rest =>
    if matches obj object then Some instance else find_entry rest object
end.

(** [_findInstanceForObject(object)] *)
Definition _findInstanceForObject (s : t) (object : Object3D) : option nat :=
find_entry (_instanceToObjectMap s) object.

(** The translate branch of [_onObjectChanged]. *)
Definition apply_translate (instance : nat) (position : Vector3) (w : World)
  : World :=
let w :=
  invoke instance gdInitialInstance.SetX
    (x position - gdInitialInstance.getWidth (instances w instance) / 2) w in
let w :=
  invoke instance gdInitialInstance.SetY
    (y position - gdInitialInstance.getHeight (instances w instance) / 2) w in
let i := instances w instance in
if gdInitialInstance.has i gdInitialInstance.hasCustomSize
   && gdInitialInstance.has i gdInitialInstance.setZ
then
  invoke instance gdInitialInstance.SetZ
    (z position
     - (if gdInitialInstance.has i gdInitialInstance.getDepth
        then gdInitialInstance.getDepth_ i else 0) / 2) w
else w.

(** The rotate branch of [_onObjectChanged]. *)
Definition apply_rotate (instance : nat) (rotation : Vector3) (w : World)
  : World :=
let w :=
  if gdInitialInstance.has (instances w instance) gdInitialInstance.setAngle
  then invoke instance gdInitialInstance.SetAngle (z rotation * 180 / PI) w
  else w in
let w :=
  if gdInitialInstance.has (instances w instance) gdInitialInstance.setRotationX
  then invoke instance gdInitialInstance.SetRotationX (x rotation * 180 / PI) w
  else w in
if gdInitialInstance.has (instances w instance) gdInitialInstance.setRotationY
then invoke instance gdInitialInstance.SetRotationY (y rotation * 180 / PI) w
else w.

(** The scale branch of [_onObjectChanged]. *)
Definition apply_scale (instance : nat) (scale : Vector3) (w : World) : World :=
let i := instances w instance in
let originalWidth :=
  if gdInitialInstance.has i gdInitialInstance._getOriginalWidth
  then gdInitialInstance._getOriginalWidth_ i
  else gdInitialInstance.getWidth i in
let originalHeight :=
  if gdInitialInstance.has i gdInitialInstance._getOriginalHeight
  then gdInitialInstance._getOriginalHeight_ i
  else gdInitialInstance.getHeight i in
let w :=
  invoke instance gdInitialInstance.SetWidth (originalWidth * Rabs (x scale)) w in
let w :=
  invoke instance gdInitialInstance.SetHeight (originalHeight * Rabs (y scale)) w in
let i := instances w instance in
if gdInitialInstance.has i gdInitialInstance.setDepth
   && gdInitialInstance.has i gdInitialInstance._getOriginalDepth
then
  let originalDepth := gdInitialInstance._getOriginalDepth_ i in
  invoke instance gdInitialInstance.SetDepth (originalDepth * Rabs (z scale)) w
else w.

(** [transformType === name && snapshot]: the snapshot when the branch
    is taken. *)
Definition branch (transformType name : string) (snapshot : option Vector3)
  : option Vector3 :=
if String.eqb transformType name then snapshot else None.

(** [_onObjectChanged(object, transformType)], the callback the gizmo
    calls when an edit is complete. *)
Definition _onObjectChanged (s : t) (object : Object3D) (transformType : string)
  (w : World) : World :=
match _findInstanceForObject s object with
| None => w
| Some instance =>
    let u := Node.userData (nodes w (uuid object)) in
    if UserData.needsUpdate u then
      let w :=
        match branch transformType "translate" (UserData.position u) with
        | Some position => apply_translate instance position w
        | None =>
        match branch transformType "rotate" (UserData.rotation u) with
        | Some rotation => apply_rotate instance rotation w
        | None =>
        match branch transformType "scale" (UserData.scale u) with
        | Some scale_ => apply_scale instance scale_ w
        | None => w
        end end end in
      let w := clearNeedsUpdate object w in
      onInstanceTransformed instance transformType w
    else w
end.

Definition with_gizmo (g : option Gizmo3DController.t) (s : t) : t :=
mk g (_selectedInstances s) (_instanceToObjectMap s) (_currentMode s)
   (_enabled s).

(** [map.get(instances[0])]; [instances[0]] is [undefined] on an empty
    array, and no instance is mapped from [undefined]. *)
Definition get_first (map : InstanceMap) (instances : list nat)
  : option Object3D :=
match nth_error instances 0 with
| Some instance0 => Map_get map instance0
| None => None
end.

(** [updateSelection(instances, instanceToObjectMap)] *)
Definition updateSelection (instances : list nat)
  (instanceToObjectMap : InstanceMap) (s : t) : t :=
let s :=
  mk (_gizmoController s) instances instanceToObjectMap (_currentMode s)
     (_enabled s) in
match _gizmoController s with
| None => s
| Some g =>
    if Nat.eqb (List.length instances) 1 && _enabled s then
      match get_first instanceToObjectMap instances with
      | Some object =>
          with_gizmo (Some (Gizmo3DController.setObject (Some object) g)) s
      | None => with_gizmo (Some (Gizmo3DController.setObject None g)) s
      end
    else with_gizmo (Some (Gizmo3DController.setObject None g)) s
end.

(** [setMode(mode)] *)
Definition setMode (mode : Mode) (s : t) : t :=
let s :=
  mk (_gizmoController s) (_selectedInstances s) (_instanceToObjectMap s)
     mode (_enabled s) in
match _gizmoController s with
| Some g => with_gizmo (Some (Gizmo3DController.setMode mode g)) s
| None => s
end.

(** [toggleSpace()]: the state it leaves, and the exception the gizmo
    controller throws, if any. *)
Definition toggleSpace (s : t) : t * option Error :=
match _gizmoController s with
| Some g =>
    let (g', e) := Gizmo3DController.toggleSpace g in
    (with_gizmo (Some g') s, e)
| None => (s, None)
end.

(** [setEnabled(enabled)] *)
Definition setEnabled (enabled : bool) (s : t) : t :=
let s :=
  mk (_gizmoController s) (_selectedInstances s) (_instanceToObjectMap s)
     (_currentMode s) enabled in
match _gizmoController s with
| Some g =>
    let g := Gizmo3DController.setEnabled enabled g in
    if enabled && Nat.eqb (List.length (_selectedInstances s)) 1 then
      match get_first (_instanceToObjectMap s) (_selectedInstances s) with
      | Some object =>
          with_gizmo (Some (Gizmo3DController.setObject (Some object) g)) s
      | None => with_gizmo (Some g) s
      end
    else if negb enabled then
      with_gizmo (Some (Gizmo3DController.setObject None g)) s
    else with_gizmo (Some g) s
| None => s
end.

(** [isDragging()] *)
Definition isDragging (s : t) : bool :=
match _gizmoController s with
| Some g => Gizmo3DController.isDragging g
| None => false
end.

(** [getCurrentMode()] *)
Definition getCurrentMode (s : t) : Mode := _currentMode s.

(** [getCurrentSpace()] *)
Definition getCurrentSpace (s : t) : Completion Space :=
match _gizmoController s with
| Some g => TransformControls.getSpace (Gizmo3DController._transformControls g)
| None => Returns local
end.

(** [isAvailable()] *)
Definition isAvailable (s : t) : bool :=
match _gizmoController s with Some _ => true | None => false end.

(** [dispose()].  The gizmo that is disposed of is dropped, so its final
    state is not kept; the map, which is the caller's, is emptied. *)
Definition dispose (s : t) : t :=
mk None (_selectedInstances s) [] (_currentMode s) (_enabled s).

End SelectedInstances3D.

(** ** The editor around the gizmo

    What can happen to a [SelectedInstances3D] and the objects it shares:
    the editor calls its public methods, and the transform widget, while
    the gizmo listens to it, moves the node it is attached to and
    dispatches its two events. *)
Module Editor.
Import THREE.

Inductive Op :=
| UpdateSelection (instances : list nat)
    (instanceToObjectMap : SelectedInstances3D.InstanceMap)
| SetMode (mode : Mode)
| ToggleSpace
| SetEnabled (enabled : bool)
| Dispose
| WidgetDragging (dragging : bool)
| WidgetMoves (position rotation scale_ : Vector3)
| Change
| ObjectChange.

Definition State := (SelectedInstances3D.t * SelectedInstances3D.World)%type.

(** The widget writes the transform of the node it is attached to. *)
Definition widget_moves (position rotation scale_ : Vector3)
  (c : TransformControls.t) (nodes : Nodes) : Nodes :=
match TransformControls.object c with
| Some o =>
    if TransformControls.enabled c then
      upd nodes (uuid o)
        (Node.mk position rotation scale_ (Node.userData (nodes (uuid o))))
    else nodes
| None => nodes
end.

Definition step (op : Op) (st : State) : State :=
let (s, w) := st in
match op with
| UpdateSelection instances map =>
    (SelectedInstances3D.updateSelection instances map s, w)
| SetMode mode => (SelectedInstances3D.setMode mode s, w)
| ToggleSpace => (fst (SelectedInstances3D.toggleSpace s), w)
| SetEnabled enabled => (SelectedInstances3D.setEnabled enabled s, w)
| Dispose => (SelectedInstances3D.dispose s, w)
| WidgetDragging b =>
    match SelectedInstances3D._gizmoController s with
    | Some g =>
        (SelectedInstances3D.with_gizmo
           (Some (Gizmo3DController.with_controls
              (TransformControls.set_dragging b
                 (Gizmo3DController._transformControls g)) g)) s, w)
    | None => st
    end
| WidgetMoves position rotation scale_ =>
    match SelectedInstances3D._gizmoController s with
    | Some g =>
        (s, SelectedInstances3D.mkWorld
              (widget_moves position rotation scale_
                 (Gizmo3DController._transformControls g)
                 (SelectedInstances3D.nodes w))
              (SelectedInstances3D.instances w)
              (SelectedInstances3D.calls w))
    | None => st
    end
| Change =>
    match SelectedInstances3D._gizmoController s with
    | Some g =>
        if TransformControls.listens change
             (Gizmo3DController._transformControls g)
        then (s, SelectedInstances3D.mkWorld
                   (Gizmo3DController._onControlsChange g
                      (SelectedInstances3D.nodes w))
                   (SelectedInstances3D.instances w)
                   (SelectedInstances3D.calls w))
        else st
    | None => st
    end
| ObjectChange =>
    match SelectedInstances3D._gizmoController s with
    | Some g =>
        if TransformControls.listens objectChange
             (Gizmo3DController._transformControls g)
        then (s, Gizmo3DController._onObjectChange
                   (SelectedInstances3D._onObjectChanged s) g w)
        else st
    | None => st
    end
end.

(** A sequence of operations, the first of the list first. *)
Definition run (ops : list Op) (st : State) : State :=
fold_left (fun st op => step op st) ops st.

(** The states the editor can be in: those a sequence of operations
    leads to from a freshly constructed [SelectedInstances3D]. *)
Inductive reachable : State -> Prop :=
| reachable_new : forall props w,
    reachable (SelectedInstances3D.constructor props, w)
| reachable_step : forall op st, reachable st -> reachable (step op st).

(** The node the gizmo's widget has to be attached to, by the policy of
    the specification: the one mapped from the sole selected instance,
    when the gizmo is enabled. *)
Definition expected_object (s : SelectedInstances3D.t) : option Object3D :=
if SelectedInstances3D._enabled s
   && Nat.eqb (List.length (SelectedInstances3D._selectedInstances s)) 1
then SelectedInstances3D.get_first (SelectedInstances3D._instanceToObjectMap s)
       (SelectedInstances3D._selectedInstances s)
else None.

(** The gizmo controller, when there is one, agrees with its owner: it
    is enabled when the owner is, and both the node it records and the
    node its widget is attached to are the expected one. *)
Definition consistent (s : SelectedInstances3D.t) : Prop :=
forall g, SelectedInstances3D._gizmoController s = Some g ->
  Gizmo3DController._isEnabled g = SelectedInstances3D._enabled s
  /\ Gizmo3DController._currentObject g = expected_object s
  /\ Gizmo3DController.attached g = expected_object s.

(** What a caller can tell of a [SelectedInstances3D] through its
    public methods. *)
Definition observe (s : SelectedInstances3D.t)
  : bool * bool * Mode * Completion Space :=
(SelectedInstances3D.isAvailable s, SelectedInstances3D.isDragging s,
 SelectedInstances3D.getCurrentMode s, SelectedInstances3D.getCurrentSpace s).

End Editor.

(** ** FreeCameraController.js *)
Module FreeCameraController.
Import THREE.

Record Quaternion := mkQuaternion { qx : R; qy : R; qz : R; qw : R }.

(** [Matrix4.elements], column-major. *)
Definition Matrix4 := nat -> R.

Record Spherical := mkSpherical { radius : R; phi : R; theta : R }.

Record Camera := mkCamera {
  position : Vector3;
  quaternion : Quaternion;
  matrix : Matrix4 }.

Definition add (a b : Vector3) : Vector3 :=
mkVector3 (x a + x b) (y a + y b) (z a + z b).

Definition sub (a b : Vector3) : Vector3 :=
mkVector3 (x a - x b) (y a - y b) (z a - z b).

Definition multiplyScalar (a : Vector3) (k : R) : Vector3 :=
mkVector3 (x a * k) (y a * k) (z a * k).

Definition length (a : Vector3) : R :=
sqrt (x a * x a + y a * y a + z a * z a).

(** [v.setFromMatrixColumn(m, index)] *)
Definition setFromMatrixColumn (m : Matrix4) (index : nat) : Vector3 :=
mkVector3 (m (index * 4)%nat) (m (index * 4 + 1)%nat) (m (index * 4 + 2)%nat).

(** [v.setFromSpherical(s)] *)
Definition setFromSpherical (s : Spherical) : Vector3 :=
let sinPhiRadius := sin (phi s) * radius s in
mkVector3 (sinPhiRadius * sin (theta s)) (cos (phi s) * radius s)
  (sinPhiRadius * cos (theta s)).

Record MouseEvent := mkMouseEvent { button : Z; clientX : R; clientY : R }.
Record WheelEvent := mkWheelEvent { deltaY : R }.
Record KeyboardEvent := mkKeyboardEvent { code : string }.

(** The listeners [enable] registers, on the canvas and on the window. *)
Inductive Listener :=
| mousedown | mousemove | mouseup | wheel | contextmenu | keydown | keyup.

Record t := mk {
  _camera : Camera;
  _target : Vector3;
  _isMouseDown : bool;
  _mouseButton : Z;
  _lastMousePosition : R * R;
  _spherical : Spherical;
  _sphericalTarget : Spherical;
  _distance : R;
  _targetDistance : R;
  _keys : string -> bool;
  _keyMoveSpeed : R;
  _enableKeys : bool;
  _enableRotate : bool;
  _enableZoom : bool;
  _enablePan : bool;
  _rotateSpeed : R;
  _zoomSpeed : R;
  _panSpeed : R;
  _minDistance : R;
  _maxDistance : R;
  _minPolarAngle : R;
  _maxPolarAngle : R;
  _isEnabled : bool;
  listeners : list Listener }.

(** An event handler returns the new state and whether it called
    [event.preventDefault()]. *)
Definition Handled := (t * bool)%type.

Definition set_mouse (down : bool) (b : Z) (last : R * R) (s : t) : t :=
mk (_camera s) (_target s) down b last (_spherical s) (_sphericalTarget s)
   (_distance s) (_targetDistance s) (_keys s) (_keyMoveSpeed s)
   (_enableKeys s) (_enableRotate s) (_enableZoom s) (_enablePan s)
   (_rotateSpeed s) (_zoomSpeed s) (_panSpeed s) (_minDistance s)
   (_maxDistance s) (_minPolarAngle s) (_maxPolarAngle s) (_isEnabled s)
   (listeners s).

Definition set_sphericalTarget (sp : Spherical) (s : t) : t :=
mk (_camera s) (_target s) (_isMouseDown s) (_mouseButton s)
   (_lastMousePosition s) (_spherical s) sp
   (_distance s) (_targetDistance s) (_keys s) (_keyMoveSpeed s)
   (_enableKeys s) (_enableRotate s) (_enableZoom s) (_enablePan s)
   (_rotateSpeed s) (_zoomSpeed s) (_panSpeed s) (_minDistance s)
   (_maxDistance s) (_minPolarAngle s) (_maxPolarAngle s) (_isEnabled s)
   (listeners s).

Definition set_targetDistance (d : R) (s : t) : t :=
mk (_camera s) (_target s) (_isMouseDown s) (_mouseButton s)
   (_lastMousePosition s) (_spherical s) (_sphericalTarget s)
   (_distance s) d (_keys s) (_keyMoveSpeed s)
   (_enableKeys s) (_enableRotate s) (_enableZoom s) (_enablePan s)
   (_rotateSpeed s) (_zoomSpeed s) (_panSpeed s) (_minDistance s)
   (_maxDistance s) (_minPolarAngle s) (_maxPolarAngle s) (_isEnabled s)
   (listeners s).

Definition set_target (v : Vector3) (s : t) : t :=
mk (_camera s) v (_isMouseDown s) (_mouseButton s)
   (_lastMousePosition s) (_spherical s) (_sphericalTarget s)
   (_distance s) (_targetDistance s) (_keys s) (_keyMoveSpeed s)
   (_enableKeys s) (_enableRotate s) (_enableZoom s) (_enablePan s)
   (_rotateSpeed s) (_zoomSpeed s) (_panSpeed s) (_minDistance s)
   (_maxDistance s) (_minPolarAngle s) (_maxPolarAngle s) (_isEnabled s)
   (listeners s).

Definition set_keys (k : string -> bool) (s : t) : t :=
mk (_camera s) (_target s) (_isMouseDown s) (_mouseButton s)
   (_lastMousePosition s) (_spherical s) (_sphericalTarget s)
   (_distance s) (_targetDistance s) k (_keyMoveSpeed s)
   (_enableKeys s) (_enableRotate s) (_enableZoom s) (_enablePan s)
   (_rotateSpeed s) (_zoomSpeed s) (_panSpeed s) (_minDistance s)
   (_maxDistance s) (_minPolarAngle s) (_maxPolarAngle s) (_isEnabled s)
   (listeners s).

Definition set_enabled (b : bool) (l : list Listener) (s : t) : t :=
mk (_camera s) (_target s) (_isMouseDown s) (_mouseButton s)
   (_lastMousePosition s) (_spherical s) (_sphericalTarget s)
   (_distance s) (_targetDistance s) (_keys s) (_keyMoveSpeed s)
   (_enableKeys s) (_enableRotate s) (_enableZoom s) (_enablePan s)
   (_rotateSpeed s) (_zoomSpeed s) (_panSpeed s) (_minDistance s)
   (_maxDistance s) (_minPolarAngle s) (_maxPolarAngle s) b l.

(** [_onMouseDown(event)] *)
Definition _onMouseDown (event : MouseEvent) (s : t) : Handled :=
if negb (_isEnabled s) then (s, false)
else (set_mouse true (button event) (clientX event, clientY event) s, true).

(** [_pan(deltaX, deltaY)] *)
Definition _pan (deltaX deltaY : R) (s : t) : t :=
let panLeft := setFromMatrixColumn (matrix (_camera s)) 0 in
let panUp := setFromMatrixColumn (matrix (_camera s)) 1 in
let panLeft := multiplyScalar panLeft (- deltaX * _panSpeed s * 0.01) in
let panUp := multiplyScalar panUp (deltaY * _panSpeed s * 0.01) in
let panOffset := add panLeft panUp in
set_target (add (_target s) panOffset) s.

(** [Math.max(lo, Math.min(hi, v))] *)
Definition clamp (lo hi v : R) : R := Rmax lo (Rmin hi v).

(** [_onMouseMove(event)] *)
Definition _onMouseMove (event : MouseEvent) (s : t) : Handled :=
if negb (_isEnabled s) || negb (_isMouseDown s) then (s, false)
else
  let deltaX := clientX event - fst (_lastMousePosition s) in
  let deltaY := clientY event - snd (_lastMousePosition s) in
  let s :=
    if Z.eqb (_mouseButton s) 0 then
      if _enableRotate s then
        let theta' :=
          theta (_sphericalTarget s) - deltaX * _rotateSpeed s * 0.01 in
        let phi' :=
          phi (_sphericalTarget s) + deltaY * _rotateSpeed s * 0.01 in
        set_sphericalTarget
          (mkSpherical (radius (_sphericalTarget s))
             (clamp (_minPolarAngle s) (_maxPolarAngle s) phi') theta') s
      else s
    else if Z.eqb (_mouseButton s) 2 then
      if _enablePan s then _pan deltaX deltaY s else s
    else if Z.eqb (_mouseButton s) 1 then
      if _enableZoom s then
        set_targetDistance
          (clamp (_minDistance s) (_maxDistance s)
             (_targetDistance s + deltaY * _zoomSpeed s * 0.05)) s
      else s
    else s in
  (set_mouse (_isMouseDown s) (_mouseButton s) (clientX event, clientY event) s,
   true).

(** [_onMouseUp(event)] *)
Definition _onMouseUp (event : MouseEvent) (s : t) : Handled :=
if negb (_isEnabled s) then (s, false)
else (set_mouse false (_mouseButton s) (_lastMousePosition s) s, true).

(** [_onWheel(event)] *)
Definition _onWheel (event : WheelEvent) (s : t) : Handled :=
if negb (_isEnabled s) || negb (_enableZoom s) then (s, false)
else
  (set_targetDistance
     (clamp (_minDistance s) (_maxDistance s)
        (_targetDistance s + deltaY event * _zoomSpeed s * 0.01)) s,
   true).

(** [this._keys[code] = value] *)
Definition write_key (c : string) (value : bool) (keys : string -> bool)
  : string -> bool :=
fun c' => if String.eqb c' c then value else keys c'.

(** [_onKeyDown(event)] *)
Definition _onKeyDown (event : KeyboardEvent) (s : t) : Handled :=
if negb (_isEnabled s) || negb (_enableKeys s) then (s, false)
else (set_keys (write_key (code event) true (_keys s)) s, false).

(** [_onKeyUp(event)] *)
Definition _onKeyUp (event : KeyboardEvent) (s : t) : Handled :=
if negb (_isEnabled s) || negb (_enableKeys s) then (s, false)
else (set_keys (write_key (code event) false (_keys s)) s, false).

(** [_onContextMenu(event)] *)
Definition _onContextMenu (s : t) : Handled := (s, true).

(** The vector [_updateKeyboardMovement] builds from the keys held. *)
Definition moveVector (s : t) : Vector3 :=
let v := mkVector3 0 0 0 in
let v := if _keys s "KeyW" then mkVector3 (x v) (y v) (z v - _keyMoveSpeed s) else v in
let v := if _keys s "KeyS" then mkVector3 (x v) (y v) (z v + _keyMoveSpeed s) else v in
let v := if _keys s "KeyA" then mkVector3 (x v - _keyMoveSpeed s) (y v) (z v) else v in
let v := if _keys s "KeyD" then mkVector3 (x v + _keyMoveSpeed s) (y v) (z v) else v in
let v := if _keys s "KeyQ" then mkVector3 (x v) (y v - _keyMoveSpeed s) (z v) else v in
let v := if _keys s "KeyE" then mkVector3 (x v) (y v + _keyMoveSpeed s) (z v) else v in
v.

(** [enable()] *)
Definition enable (s : t) : t :=
if _isEnabled s then s
else
  set_enabled true
    (listeners s ++ [mousedown; mousemove; mouseup; wheel; contextmenu]
     ++ (if _enableKeys s then [keydown; keyup] else [])) s.

Definition listener_eqb (a b : Listener) : bool :=
match a, b with
| mousedown, mousedown | mousemove, mousemove | mouseup, mouseup
| wheel, wheel | contextmenu, contextmenu | keydown, keydown
| keyup, keyup => true
| _, _ => false
end.

Definition without (removed l : list Listener) : list Listener :=
filter (fun e => negb (existsb (listener_eqb e) removed)) l.

(** [disable()] *)
Definition disable (s : t) : t :=
if negb (_isEnabled s) then s
else
  set_enabled false
    (without ([mousedown; mousemove; mouseup; wheel; contextmenu]
              ++ (if _enableKeys s then [keydown; keyup] else []))
       (listeners s)) s.

(** [setTarget(x, y, z)] *)
Definition setTarget (x y z : R) (s : t) : t := set_target (mkVector3 x y z) s.

(** [isEnabled()] *)
Definition isEnabled (s : t) : bool := _isEnabled s.

(** [dispose()] *)
Definition dispose (s : t) : t := disable s.

(** The functions of three.js whose result the controller only passes
    on: the rotation of a vector by the camera's quaternion and the
    re-orientation of the camera towards a point. *)
Section Library.

Variable applyQuaternion : Vector3 -> Quaternion -> Vector3.
Variable lookAt : Camera -> Vector3 -> Camera.
Variable setFromVector3 : Vector3 -> Spherical.

(** [_updateSphericalFromCamera()] *)
Definition _updateSphericalFromCamera (s : t) : t :=
let offset := sub (position (_camera s)) (_target s) in
let spherical := setFromVector3 offset in
mk (_camera s) (_target s) (_isMouseDown s) (_mouseButton s)
   (_lastMousePosition s) spherical spherical
   (length offset) (length offset) (_keys s) (_keyMoveSpeed s)
   (_enableKeys s) (_enableRotate s) (_enableZoom s) (_enablePan s)
   (_rotateSpeed s) (_zoomSpeed s) (_panSpeed s) (_minDistance s)
   (_maxDistance s) (_minPolarAngle s) (_maxPolarAngle s) (_isEnabled s)
   (listeners s).

(** [constructor({ camera, renderer, target, enableKeys = true })], on
    the field initialisers of the class. *)
Definition constructor (camera : Camera) (target : option Vector3)
  (enableKeys : option bool) : t :=
_updateSphericalFromCamera
  (mk camera
     (match target with Some v => v | None => mkVector3 0 0 0 end)
     false 0%Z (0, 0) (mkSpherical 1 0 0) (mkSpherical 1 0 0) 10 10
     (fun _ => false) 0.5
     (match enableKeys with Some b => b | None => true end)
     true true true 1 1 1 0.1 1000 0 PI false []).

(** [focusOn(position, distance)] *)
Definition focusOn (position : Vector3) (distance : option R) (s : t) : t :=
let s := set_target position s in
let s :=
  match distance with
  | Some d =>
      mk (_camera s) (_target s) (_isMouseDown s) (_mouseButton s)
        (_lastMousePosition s) (_spherical s) (_sphericalTarget s)
        d d (_keys s) (_keyMoveSpeed s)
        (_enableKeys s) (_enableRotate s) (_enableZoom s) (_enablePan s)
        (_rotateSpeed s) (_zoomSpeed s) (_panSpeed s) (_minDistance s)
        (_maxDistance s) (_minPolarAngle s) (_maxPolarAngle s) (_isEnabled s)
        (listeners s)
  | None => s
  end in
_updateSphericalFromCamera s.

(** [_updateKeyboardMovement()] *)
Definition _updateKeyboardMovement (s : t) : t :=
if negb (_enableKeys s) then s
else
  let v := moveVector s in
  if Rlt_dec 0 (length v) then
    set_target (add (_target s) (applyQuaternion v (quaternion (_camera s)))) s
  else s.

(** The smooth interpolation of [update]. *)
Definition dampingFactor : R := 0.1.

(** [update()] *)
Definition update (s : t) : t :=
if negb (_isEnabled s) then s
else
  let s := _updateKeyboardMovement s in
  let theta' :=
    theta (_spherical s)
    + (theta (_sphericalTarget s) - theta (_spherical s)) * dampingFactor in
  let phi' :=
    phi (_spherical s)
    + (phi (_sphericalTarget s) - phi (_spherical s)) * dampingFactor in
  let distance' :=
    _distance s + (_targetDistance s - _distance s) * dampingFactor in
  let spherical' := mkSpherical distance' phi' theta' in
  let offset := setFromSpherical spherical' in
  let camera' :=
    lookAt
      (mkCamera (add (_target s) offset) (quaternion (_camera s))
         (matrix (_camera s)))
      (_target s) in
  mk camera' (_target s) (_isMouseDown s) (_mouseButton s)
     (_lastMousePosition s) spherical' (_sphericalTarget s)
     distance' (_targetDistance s) (_keys s) (_keyMoveSpeed s)
     (_enableKeys s) (_enableRotate s) (_enableZoom s) (_enablePan s)
     (_rotateSpeed s) (_zoomSpeed s) (_panSpeed s) (_minDistance s)
     (_maxDistance s) (_minPolarAngle s) (_maxPolarAngle s) (_isEnabled s)
     (listeners s).

(** [n] calls of [update()] in a row. *)
Fixpoint updates (n : nat) (s : t) : t :=
match n with
| O => s
| S n' => updates n' (update s)
end.

End Library.

(** The three coordinates [update] damps, their current value and the
    value they are heading to. *)
Inductive Coordinate := Theta | Phi | Distance.

Definition current (c : Coordinate) (s : t) : R :=
match c with
| Theta => theta (_spherical s)
| Phi => phi (_spherical s)
| Distance => _distance s
end.

Definition target (c : Coordinate) (s : t) : R :=
match c with
| Theta => theta (_sphericalTarget s)
| Phi => phi (_sphericalTarget s)
| Distance => _targetDistance s
end.

(** [v] lies between [a] and [b], whichever is the larger. *)
Definition between (a b v : R) : Prop := Rmin a b <= v <= Rmax a b.

(** The inputs the controller receives. *)
Inductive Input :=
| MouseDown (event : MouseEvent)
| MouseMove (event : MouseEvent)
| MouseUp (event : MouseEvent)
| Wheel (event : WheelEvent)
| KeyDown (event : KeyboardEvent)
| KeyUp (event : KeyboardEvent).

(** The handler of an input. *)
Definition handle (i : Input) (s : t) : Handled :=
match i with
| MouseDown e => _onMouseDown e s
| MouseMove e => _onMouseMove e s
| MouseUp e => _onMouseUp e s
| Wheel e => _onWheel e s
| KeyDown e => _onKeyDown e s
| KeyUp e => _onKeyUp e s
end.

End FreeCameraController.

(** ** Concrete objects for the examples *)
Module Sample.
Import THREE.

(** A root node and a child of it. *)
Definition root : Object3D := mkObject3D 1 None.
Definition child : Object3D := mkObject3D 2 (Some root).
Definition other : Object3D := mkObject3D 3 None.

Definition origin : Vector3 := mkVector3 0 0 0.
Definition ones : Vector3 := mkVector3 1 1 1.

(** Every node at the origin, unrotated, unscaled, with empty [userData]. *)
Definition fresh_nodes : Nodes :=
fun _ => Node.mk origin origin ones UserData.empty.

(** Node [o] with a pending edit whose snapshot is [p], [r], [s]. *)
Definition pending (o : Object3D) (p r s : Vector3) : Nodes :=
upd fresh_nodes (uuid o)
  (Node.mk p r s (UserData.mk true (Some p) (Some r) (Some s))).

(** An instance at the origin of the given size, which exposes the
    optional members [caps] tells. *)
Definition instance (width height depth : R)
  (caps : gdInitialInstance.Optional -> bool) : gdInitialInstance.t :=
gdInitialInstance.mk 0 0 0 width height depth 0 0 0 width height depth caps.

Definition all : gdInitialInstance.Optional -> bool := fun _ => true.
Definition none : gdInitialInstance.Optional -> bool := fun _ => false.

(** A three-dimensional instance of the editor: it has a depth and the
    setters of the three rotations, but no [_getOriginal...] member. *)
Definition plain3d : gdInitialInstance.Optional -> bool :=
fun m =>
  match m with
  | gdInitialInstance._getOriginalWidth
  | gdInitialInstance._getOriginalHeight
  | gdInitialInstance._getOriginalDepth => false
  | _ => true
  end.

(** An instance with everything optional but [setAngle]. *)
Definition no_yaw : gdInitialInstance.Optional -> bool :=
fun m =>
  match m with
  | gdInitialInstance.setAngle => false
  | _ => true
  end.

Definition objects (nodes : Nodes) (i : gdInitialInstance.t)
  : SelectedInstances3D.World :=
SelectedInstances3D.mkWorld nodes (fun _ => i) [].

Definition full_props : SelectedInstances3D.Props :=
SelectedInstances3D.mkProps (Some 0%nat) (Some 0%nat) (Some (mkScene 0 false)).

Definition no_props : SelectedInstances3D.Props :=
SelectedInstances3D.mkProps None None None.

(** A [SelectedInstances3D] whose only selected instance, number 7, is
    mapped to [root]. *)
Definition selecting_root : SelectedInstances3D.t :=
SelectedInstances3D.updateSelection [7%nat] [(7%nat, root)]
  (SelectedInstances3D.setEnabled true
     (SelectedInstances3D.constructor full_props)).

(** A camera at (0, 0, 10) with the identity orientation. *)
Definition camera : FreeCameraController.Camera :=
FreeCameraController.mkCamera (mkVector3 0 0 10)
  (FreeCameraController.mkQuaternion 0 0 0 1)
  (fun k => if Nat.eqb (Nat.modulo k 5) 0 then 1 else 0).

(** Stand-ins for the library functions in the concrete runs: a camera
    that keeps the identity orientation. *)
Definition applyQuaternion (v : Vector3) (q : FreeCameraController.Quaternion)
  : Vector3 := v.
Definition lookAt (c : FreeCameraController.Camera) (target : Vector3)
  : FreeCameraController.Camera := c.
Definition setFromVector3 (v : Vector3) : FreeCameraController.Spherical :=
FreeCameraController.mkSpherical (FreeCameraController.length v) 0 0.

Definition controller : FreeCameraController.t :=
FreeCameraController.constructor setFromVector3 camera None None.

End Sample.

(** ** Sequences of calls *)

(** The public methods of a [Gizmo3DController], called one after the
    other on a freshly constructed controller. *)
Module GizmoCalls.
Import THREE.

Inductive Call :=
| SetObject (object : option Object3D)
| SetMode (mode : Mode)
| ToggleSpace
| SetEnabled (enabled : bool)
| Dispose.

Definition call (c : Call) (g : Gizmo3DController.t) : Gizmo3DController.t :=
match c with
| SetObject object => Gizmo3DController.setObject object g
| SetMode mode => Gizmo3DController.setMode mode g
| ToggleSpace => fst (Gizmo3DController.toggleSpace g)
| SetEnabled enabled => Gizmo3DController.setEnabled enabled g
| Dispose => Gizmo3DController.dispose g
end.

Definition calls (l : list Call) (g : Gizmo3DController.t)
  : Gizmo3DController.t :=
fold_left (fun g c => call c g) l g.

End GizmoCalls.

(** The chain of parents of a scene node, nearest first. *)
Fixpoint ancestors (o : THREE.Object3D) : list THREE.Object3D :=
match THREE.parent o with
| None => []
| Some p => p :: ancestors p
end.

(** What can happen to a [FreeCameraController] once constructed: an
    input reaches its handler, the render loop calls [update()], or the
    editor calls a public method. *)
Module CameraCalls.
Import THREE.

Inductive Call :=
| Input (i : FreeCameraController.Input)
| ContextMenu
| Update
| Enable
| Disable
| SetTarget (x y z : R).

(** The zoom and the polar angle, current and target, are within the
    limits of the controller. *)
Definition within_limits (s : FreeCameraController.t) : Prop :=
FreeCameraController._minDistance s <= FreeCameraController._targetDistance s
  <= FreeCameraController._maxDistance s
/\ FreeCameraController._minDistance s <= FreeCameraController._distance s
   <= FreeCameraController._maxDistance s
/\ FreeCameraController._minPolarAngle s
   <= FreeCameraController.phi (FreeCameraController._sphericalTarget s)
   <= FreeCameraController._maxPolarAngle s
/\ FreeCameraController._minPolarAngle s
   <= FreeCameraController.phi (FreeCameraController._spherical s)
   <= FreeCameraController._maxPolarAngle s.

(** Two states have the same limits. *)
Definition same_limits (s s' : FreeCameraController.t) : Prop :=
FreeCameraController._minDistance s' = FreeCameraController._minDistance s
/\ FreeCameraController._maxDistance s' = FreeCameraController._maxDistance s
/\ FreeCameraController._minPolarAngle s'
   = FreeCameraController._minPolarAngle s
/\ FreeCameraController._maxPolarAngle s'
   = FreeCameraController._maxPolarAngle s.

Section Library.

Variable applyQuaternion : Vector3 -> FreeCameraController.Quaternion -> Vector3.
Variable lookAt :
  FreeCameraController.Camera -> Vector3 -> FreeCameraController.Camera.

Definition call (c : Call) (s : FreeCameraController.t)
  : FreeCameraController.t :=
match c with
| Input i => fst (FreeCameraController.handle i s)
| ContextMenu => fst (FreeCameraController._onContextMenu s)
| Update => FreeCameraController.update applyQuaternion lookAt s
| Enable => FreeCameraController.enable s
| Disable => FreeCameraController.disable s
| SetTarget x y z => FreeCameraController.setTarget x y z s
end.

Definition calls (l : list Call) (s : FreeCameraController.t)
  : FreeCameraController.t :=
fold_left (fun s c => call c s) l s.

End Library.

End CameraCalls.

(** ** Editor3DToolbar.js *)
Module Editor3DToolbar.

(** What an icon button shows. *)
Inductive Child :=
| TranslateIcon | RotateIcon | ScaleIcon | CameraIcon
| Text (label : string).

(** The callbacks of the props, as an [onClick] calls them. *)
Inductive Callback :=
| onGizmoToggle
| onGizmoModeChange (mode : Mode)
| onToggleGizmoSpace
| onFreeCameraToggle.

(** An [<IconButton>]; a prop that is not given is [None]. *)
Record IconButton := mkIconButton {
  selected : option bool;
  onClick : Callback;
  disabled : option bool;
  size : string;
  child : Child }.

Inductive Element :=
| Tooltip (title : string) (button : IconButton)
| ToolbarSeparator.

Record Props := mkProps {
  gizmoMode : Mode;
  freeCameraEnabled : bool;
  gizmoEnabled : bool;
  gizmoSpace : Space }.

(** [gizmoMode === 'translate'] and the like. *)
Definition mode_eqb (a b : Mode) : bool :=
match a, b with
| translate, translate | rotate, rotate | scale, scale => true
| _, _ => false
end.

(** The name of a space, as the tooltip's template prints it. *)
Definition space_string (sp : Space) : string :=
match sp with
| local => "local"%string
| world => "world"%string
end.

(** [Editor3DToolbar(props)]: the children of the [<Toolbar>]. *)
Definition render (p : Props) : list Element :=
[ Tooltip "Toggle 3D Gizmo"
    (mkIconButton (Some (gizmoEnabled p)) onGizmoToggle None "small" TranslateIcon);
  ToolbarSeparator;
  Tooltip "Translate Mode (T)"
    (mkIconButton (Some (mode_eqb (gizmoMode p) translate))
       (onGizmoModeChange translate) (Some (negb (gizmoEnabled p)))
       "small" TranslateIcon);
  Tooltip "Rotate Mode (R)"
    (mkIconButton (Some (mode_eqb (gizmoMode p) rotate))
       (onGizmoModeChange rotate) (Some (negb (gizmoEnabled p)))
       "small" RotateIcon);
  Tooltip "Scale Mode (S)"
    (mkIconButton (Some (mode_eqb (gizmoMode p) scale))
       (onGizmoModeChange scale) (Some (negb (gizmoEnabled p)))
       "small" ScaleIcon);
  ToolbarSeparator;
  Tooltip ("Toggle Gizmo Space: " ++ space_string (gizmoSpace p) ++ " (X)")
    (mkIconButton None onToggleGizmoSpace (Some (negb (gizmoEnabled p)))
       "small" (Text (match gizmoSpace p with local => "L" | world => "W" end)));
  ToolbarSeparator;
  Tooltip "Free Camera Mode"
    (mkIconButton (Some (freeCameraEnabled p)) onFreeCameraToggle None
       "small" CameraIcon) ]%string.

(** The buttons of a toolbar, left to right. *)
Fixpoint buttons (l : list Element) : list IconButton :=
match l with
| [] => []
| Tooltip _ b :: rest => b :: buttons rest
| ToolbarSeparator :: rest => buttons rest
end.

(** A prop that is not given counts as false. *)
Definition is_true (b : option bool) : bool :=
match b with Some true => true | _ => false end.

End Editor3DToolbar.

(** * Properties *)

(** ** Gizmo3DController *)

(** C10.  The gizmo controller remembers the node given to [setObject]
    across enabling and disabling: on a disabled controller
    [setObject(o)] records [o] and leaves the widget detached;
    [setEnabled(false)] detaches the widget and keeps the recorded
    node; [setEnabled(true)] after it attaches the widget to that same
    node again. *)
Theorem gizmo_remembers_object :
  forall (g g' : Gizmo3DController.t) (o : THREE.Object3D),
  Gizmo3DController._isEnabled g = false ->
  Gizmo3DController._currentObject g' = Some o ->
  let g1 := Gizmo3DController.setObject (Some o) g in
  let g2 := Gizmo3DController.setEnabled false g' in
  let g3 := Gizmo3DController.setEnabled true g2 in
  (Gizmo3DController._currentObject g1 = Some o
   /\ Gizmo3DController.attached g1 = None)
  /\ (Gizmo3DController._currentObject g2 = Some o
      /\ Gizmo3DController.attached g2 = None)
  /\ (Gizmo3DController._currentObject g3 = Some o
      /\ Gizmo3DController.attached g3 = Some o).
Proof.
  intros g g' o Hdis Hcur.
  unfold Gizmo3DController.setObject, Gizmo3DController.setEnabled,
    Gizmo3DController.attached.
  simpl. rewrite Hdis, Hcur. simpl. repeat split; reflexivity.
Qed.

Lemma gizmo_remembers_object_witness :
  let g := Gizmo3DController.constructor 0 0 (THREE.mkScene 0 false) in
  let g' :=
    Gizmo3DController.setEnabled true
      (Gizmo3DController.setObject (Some Sample.root) g) in
  Gizmo3DController.attached (Gizmo3DController.setObject (Some Sample.root) g)
  = None
  /\ Gizmo3DController.attached g' = Some Sample.root
  /\ Gizmo3DController.attached (Gizmo3DController.setEnabled false g') = None
  /\ Gizmo3DController.attached
       (Gizmo3DController.setEnabled true
          (Gizmo3DController.setEnabled false g'))
     = Some Sample.root.
Proof.
  intros g g'.
  pose proof (@gizmo_remembers_object g g' Sample.root eq_refl eq_refl) as H.
  cbv zeta in H.
  destruct H as [[_ H1] [[_ H2] [_ H3]]].
  split; [exact H1 | split; [reflexivity | split; [exact H2 | exact H3]]].
Defined.

(** ** SelectedInstances3D: the attachment policy *)

Lemma expected_object_spec (s : SelectedInstances3D.t) (o : THREE.Object3D) :
  Editor.expected_object s = Some o
  <-> SelectedInstances3D._enabled s = true
      /\ exists instance,
           SelectedInstances3D._selectedInstances s = [instance]
           /\ SelectedInstances3D.Map_get
                (SelectedInstances3D._instanceToObjectMap s) instance = Some o.
Proof.
  unfold Editor.expected_object, SelectedInstances3D.get_first.
  destruct s as [g sel map md en]; simpl.
  split.
  - destruct en; simpl; [|discriminate].
    destruct sel as [|i [|j sel]]; simpl; try discriminate.
    intros H. split; [reflexivity|]. exists i. split; [reflexivity|exact H].
  - intros [Hen [i [Hsel Hget]]]. subst en sel. simpl. exact Hget.
Qed.

Lemma consistent_constructor (props : SelectedInstances3D.Props) :
  Editor.consistent (SelectedInstances3D.constructor props).
Proof.
  intros g Hg. unfold SelectedInstances3D.constructor in Hg. simpl in Hg.
  destruct (SelectedInstances3D.threeRenderer props),
    (SelectedInstances3D.threeCamera props),
    (SelectedInstances3D.threeScene props); try discriminate.
  injection Hg as <-. repeat split.
Qed.

Lemma updateSelection_with_gizmo instances map g sel0 map0 md en :
  SelectedInstances3D.updateSelection instances map
    (SelectedInstances3D.mk (Some g) sel0 map0 md en)
  = SelectedInstances3D.mk
      (Some (Gizmo3DController.setObject
               (if Nat.eqb (List.length instances) 1 && en
                then SelectedInstances3D.get_first map instances else None) g))
      instances map md en.
Proof.
  unfold SelectedInstances3D.updateSelection. simpl.
  destruct (Nat.eqb (List.length instances) 1 && en);
    [destruct (SelectedInstances3D.get_first map instances)|]; reflexivity.
Qed.

Lemma setEnabled_with_gizmo enabled g sel map md en :
  SelectedInstances3D.setEnabled enabled
    (SelectedInstances3D.mk (Some g) sel map md en)
  = SelectedInstances3D.mk
      (Some
         (let g1 := Gizmo3DController.setEnabled enabled g in
          if enabled then
            if Nat.eqb (List.length sel) 1 then
              match SelectedInstances3D.get_first map sel with
              | Some o => Gizmo3DController.setObject (Some o) g1
              | None => g1
              end
            else g1
          else Gizmo3DController.setObject None g1))
      sel map md enabled.
Proof.
  unfold SelectedInstances3D.setEnabled. simpl.
  destruct enabled; simpl;
    [destruct (Nat.eqb (List.length sel) 1);
       [destruct (SelectedInstances3D.get_first map sel)|]|]; reflexivity.
Qed.

Lemma consistent_updateSelection instances map (s : SelectedInstances3D.t) :
  Editor.consistent s ->
  Editor.consistent (SelectedInstances3D.updateSelection instances map s).
Proof.
  intros Hs g' Hg'.
  destruct s as [[g|] sel0 map0 md en]; [|discriminate].
  destruct (Hs g eq_refl) as [Hen _]. simpl in Hen.
  rewrite updateSelection_with_gizmo in *. simpl in Hg'.
  injection Hg' as <-.
  unfold Editor.expected_object, Gizmo3DController.attached. simpl.
  rewrite Hen, (andb_comm en).
  destruct (Nat.eqb (List.length instances) 1 && en) eqn:Hc.
  - apply andb_true_iff in Hc. destruct Hc as [_ ->].
    destruct (SelectedInstances3D.get_first map instances); auto.
  - auto.
Qed.

Lemma consistent_setEnabled enabled (s : SelectedInstances3D.t) :
  Editor.consistent s ->
  Editor.consistent (SelectedInstances3D.setEnabled enabled s).
Proof.
  intros Hs g' Hg'.
  destruct s as [[g|] sel map md en]; [|discriminate].
  destruct (Hs g eq_refl) as [Hen [Hcur Hatt]].
  rewrite setEnabled_with_gizmo in *. simpl in Hg'.
  injection Hg' as <-.
  unfold Editor.expected_object, Gizmo3DController.attached in *.
  simpl in *.
  destruct enabled; simpl; [|auto].
  destruct (Nat.eqb (List.length sel) 1) eqn:Hlen.
  - destruct (SelectedInstances3D.get_first map sel) as [o|] eqn:Hget;
      simpl; auto.
    rewrite andb_true_r in Hcur.
    assert (Hnone : Gizmo3DController._currentObject g = None)
      by (rewrite Hcur; destruct en; reflexivity).
    rewrite Hnone. simpl.
    repeat split. rewrite Hatt. destruct en; reflexivity.
  - rewrite andb_false_r in Hcur, Hatt.
    unfold Gizmo3DController.setEnabled. simpl. rewrite Hcur. auto.
Qed.

Lemma consistent_step (op : Editor.Op) (st : Editor.State) :
  Editor.consistent (fst st) -> Editor.consistent (fst (Editor.step op st)).
Proof.
  destruct st as [s w]. simpl. intros Hs.
  destruct op; simpl.
  - apply consistent_updateSelection; exact Hs.
  - intros g' Hg'. destruct s as [[g|] sel map md en]; [|discriminate].
    destruct (Hs g eq_refl) as [Hen [Hcur Hatt]].
    simpl in Hg'. injection Hg' as <-. exact (conj Hen (conj Hcur Hatt)).
  - intros g' Hg'. destruct s as [[g|] sel map md en]; [|discriminate].
    destruct (Hs g eq_refl) as [Hen [Hcur Hatt]].
    simpl in Hg'. injection Hg' as <-. exact (conj Hen (conj Hcur Hatt)).
  - apply consistent_setEnabled; exact Hs.
  - intros g' Hg'. discriminate.
  - destruct (SelectedInstances3D._gizmoController s) as [g|] eqn:Hg;
      simpl; [|exact Hs].
    intros g' Hg'. destruct s as [g0 sel map md en]. simpl in *. subst g0.
    destruct (Hs g eq_refl) as [Hen [Hcur Hatt]].
    injection Hg' as <-. exact (conj Hen (conj Hcur Hatt)).
  - destruct (SelectedInstances3D._gizmoController s); exact Hs.
  - destruct (SelectedInstances3D._gizmoController s) as [g|]; [|exact Hs].
    destruct (THREE.TransformControls.listens _ _); exact Hs.
  - destruct (SelectedInstances3D._gizmoController s) as [g|]; [|exact Hs].
    destruct (THREE.TransformControls.listens _ _); exact Hs.
Qed.

Lemma reachable_consistent (st : Editor.State) :
  Editor.reachable st -> Editor.consistent (fst st).
Proof.
  induction 1 as [props w | op st _ IH].
  - apply consistent_constructor.
  - apply consistent_step; exact IH.
Qed.

Lemma get_first_spec (map : SelectedInstances3D.InstanceMap)
  (instances : list nat) (enabled : bool) (o : THREE.Object3D) :
  (if enabled && Nat.eqb (List.length instances) 1
   then SelectedInstances3D.get_first map instances else None) = Some o
  <-> enabled = true
      /\ exists instance,
           instances = [instance]
           /\ SelectedInstances3D.Map_get map instance = Some o.
Proof.
  unfold SelectedInstances3D.get_first. split.
  - destruct enabled; simpl; [|discriminate].
    destruct instances as [|i [|j l]]; simpl; try discriminate.
    intros H. split; [reflexivity|]. exists i. split; [reflexivity|exact H].
  - intros [-> [i [-> Hget]]]. simpl. exact Hget.
Qed.

Lemma get_first_none (map : SelectedInstances3D.InstanceMap)
  (instances : list nat) (enabled : bool) :
  enabled = false
  \/ List.length instances <> 1%nat
  \/ (forall instance, instances = [instance] ->
        SelectedInstances3D.Map_get map instance = None) ->
  (if enabled && Nat.eqb (List.length instances) 1
   then SelectedInstances3D.get_first map instances else None) = None.
Proof.
  unfold SelectedInstances3D.get_first.
  intros [-> | [Hlen | Hmap]]; [reflexivity | |].
  - destruct instances as [|i [|j l]]; simpl in *;
      [|exfalso; apply Hlen; reflexivity|]; rewrite andb_false_r; reflexivity.
  - destruct enabled; [|reflexivity].
    destruct instances as [|i [|j l]]; simpl; try reflexivity.
    apply Hmap. reflexivity.
Qed.

(** C1.  In any state the editor can reach, a call
    [updateSelection(instances, map)] records its two arguments and
    leaves the widget of the gizmo attached to the node [map] has for
    the sole instance of [instances], provided the gizmo is enabled;
    when the gizmo is disabled, [instances] is not a single instance,
    or [map] has no node for it, the widget is attached to nothing.
    A call [setEnabled(enabled)] records the flag and leaves the widget
    attached by the same rule, with the flag given and the instances
    and the map recorded last.  Neither call creates or drops the gizmo
    controller. *)
Theorem gizmo_attachment_policy :
  forall (s : SelectedInstances3D.t) (w : SelectedInstances3D.World),
  Editor.reachable (s, w) ->
  (forall instances map,
     let s' := SelectedInstances3D.updateSelection instances map s in
     SelectedInstances3D._selectedInstances s' = instances
     /\ SelectedInstances3D._instanceToObjectMap s' = map
     /\ SelectedInstances3D._enabled s' = SelectedInstances3D._enabled s
     /\ SelectedInstances3D.isAvailable s' = SelectedInstances3D.isAvailable s
     /\ forall g, SelectedInstances3D._gizmoController s' = Some g ->
          (forall o,
             Gizmo3DController.attached g = Some o
             <-> SelectedInstances3D._enabled s = true
                 /\ exists instance,
                      instances = [instance]
                      /\ SelectedInstances3D.Map_get map instance = Some o)
          /\ (SelectedInstances3D._enabled s = false
              \/ List.length instances <> 1%nat
              \/ (forall instance, instances = [instance] ->
                    SelectedInstances3D.Map_get map instance = None) ->
              Gizmo3DController.attached g = None))
  /\ (forall enabled,
        let s' := SelectedInstances3D.setEnabled enabled s in
        SelectedInstances3D._enabled s' = enabled
        /\ SelectedInstances3D._selectedInstances s'
           = SelectedInstances3D._selectedInstances s
        /\ SelectedInstances3D._instanceToObjectMap s'
           = SelectedInstances3D._instanceToObjectMap s
        /\ SelectedInstances3D.isAvailable s'
           = SelectedInstances3D.isAvailable s
        /\ forall g, SelectedInstances3D._gizmoController s' = Some g ->
             (forall o,
                Gizmo3DController.attached g = Some o
                <-> enabled = true
                    /\ exists instance,
                         SelectedInstances3D._selectedInstances s = [instance]
                         /\ SelectedInstances3D.Map_get
                              (SelectedInstances3D._instanceToObjectMap s)
                              instance = Some o)
             /\ (enabled = false
                 \/ List.length (SelectedInstances3D._selectedInstances s)
                    <> 1%nat
                 \/ (forall instance,
                       SelectedInstances3D._selectedInstances s = [instance] ->
                       SelectedInstances3D.Map_get
                         (SelectedInstances3D._instanceToObjectMap s)
                         instance = None) ->
                 Gizmo3DController.attached g = None)).
Proof.
  intros s w Hreach. split.
  - intros instances map s'.
    pose proof (Editor.reachable_step
                  (Editor.UpdateSelection instances map) Hreach) as Hr'.
    simpl in Hr'. fold s' in Hr'.
    assert (Hfields :
      SelectedInstances3D._selectedInstances s' = instances
      /\ SelectedInstances3D._instanceToObjectMap s' = map
      /\ SelectedInstances3D._enabled s' = SelectedInstances3D._enabled s
      /\ SelectedInstances3D.isAvailable s'
         = SelectedInstances3D.isAvailable s).
    { unfold s'. destruct s as [[g0|] sel0 map0 md en].
      - rewrite updateSelection_with_gizmo. repeat split.
      - repeat split. }
    destruct Hfields as [Hsel [Hmap [Hen Hav]]].
    repeat (split; [assumption|]).
    intros g Hg.
    destruct (reachable_consistent Hr' Hg) as [_ [_ Hatt]]. simpl in Hatt.
    unfold Editor.expected_object in Hatt. rewrite Hsel, Hmap, Hen in Hatt.
    split.
    + intros o. rewrite Hatt. apply get_first_spec.
    + intros Hno. rewrite Hatt. apply get_first_none. exact Hno.
  - intros enabled s'.
    pose proof (Editor.reachable_step (Editor.SetEnabled enabled) Hreach)
      as Hr'.
    simpl in Hr'. fold s' in Hr'.
    assert (Hfields :
      SelectedInstances3D._enabled s' = enabled
      /\ SelectedInstances3D._selectedInstances s'
         = SelectedInstances3D._selectedInstances s
      /\ SelectedInstances3D._instanceToObjectMap s'
         = SelectedInstances3D._instanceToObjectMap s
      /\ SelectedInstances3D.isAvailable s'
         = SelectedInstances3D.isAvailable s).
    { unfold s'. destruct s as [[g0|] sel0 map0 md en].
      - rewrite setEnabled_with_gizmo. repeat split.
      - repeat split. }
    destruct Hfields as [Hen [Hsel [Hmap Hav]]].
    repeat (split; [assumption|]).
    intros g Hg.
    destruct (reachable_consistent Hr' Hg) as [_ [_ Hatt]]. simpl in Hatt.
    unfold Editor.expected_object in Hatt. rewrite Hsel, Hmap, Hen in Hatt.
    split.
    + intros o. rewrite Hatt. apply get_first_spec.
    + intros Hno. rewrite Hatt. apply get_first_none. exact Hno.
Qed.

(** The policy at work on a gizmo that is enabled: one selected instance
    with a node attaches, two instances detach, an empty selection
    detaches, an instance the map does not have detaches, and
    disabling detaches. *)
Lemma gizmo_attachment_policy_witness :
  let s :=
    SelectedInstances3D.setEnabled true
      (SelectedInstances3D.constructor Sample.full_props) in
  let map := [(7%nat, Sample.root); (8%nat, Sample.other)] in
  let attached_after s' :=
    match SelectedInstances3D._gizmoController s' with
    | Some g => Some (Gizmo3DController.attached g)
    | None => None
    end in
  attached_after (SelectedInstances3D.updateSelection [7%nat] map s)
  = Some (Some Sample.root)
  /\ attached_after
       (SelectedInstances3D.updateSelection [7%nat; 8%nat] map
          (SelectedInstances3D.updateSelection [7%nat] map s))
     = Some None
  /\ attached_after
       (SelectedInstances3D.updateSelection [] []
          (SelectedInstances3D.updateSelection [7%nat] map s))
     = Some None
  /\ attached_after
       (SelectedInstances3D.updateSelection [9%nat] map
          (SelectedInstances3D.updateSelection [7%nat] map s))
     = Some None
  /\ attached_after
       (SelectedInstances3D.setEnabled false
          (SelectedInstances3D.updateSelection [7%nat] map s))
     = Some None
  /\ attached_after
       (SelectedInstances3D.setEnabled true
          (SelectedInstances3D.setEnabled false
             (SelectedInstances3D.updateSelection [7%nat] map s)))
     = Some (Some Sample.root).
Proof.
  intros s map attached_after.
  set (w := Sample.objects Sample.fresh_nodes
              (Sample.instance 1 1 1 Sample.all)).
  set (s1 := SelectedInstances3D.updateSelection [7%nat] map s).
  set (s2 := SelectedInstances3D.setEnabled false s1).
  assert (Hr : Editor.reachable (s, w)).
  { exact (Editor.reachable_step (Editor.SetEnabled true)
             (Editor.reachable_new Sample.full_props w)). }
  assert (Hr1 : Editor.reachable (s1, w)).
  { exact (Editor.reachable_step (Editor.UpdateSelection [7%nat] map) Hr). }
  assert (Hr2 : Editor.reachable (s2, w)).
  { exact (Editor.reachable_step (Editor.SetEnabled false) Hr1). }
  destruct (@gizmo_attachment_policy s w Hr) as [Hu _].
  destruct (@gizmo_attachment_policy s1 w Hr1) as [Hu1 He1].
  destruct (@gizmo_attachment_policy s2 w Hr2) as [_ He2].
  assert (Hne : 2%nat <> 1%nat) by discriminate.
  assert (Hne0 : 0%nat <> 1%nat) by discriminate.
  assert (Hcase : forall s' (r : option THREE.Object3D),
    (forall g, SelectedInstances3D._gizmoController s' = Some g ->
       Gizmo3DController.attached g = r) ->
    SelectedInstances3D.isAvailable s' = true ->
    attached_after s' = Some r).
  { intros s' r H Hav. unfold attached_after.
    unfold SelectedInstances3D.isAvailable in Hav.
    destruct (SelectedInstances3D._gizmoController s') as [g|];
      [|discriminate Hav].
    f_equal. apply H. reflexivity. }
  split; [|split; [|split; [|split; [|split]]]].
  - destruct (Hu [7%nat] map) as [_ [_ [_ [_ H]]]].
    apply Hcase; [|reflexivity]. intros g Hg.
    apply (proj1 (H g Hg)).
    split; [reflexivity|]. exists 7%nat. split; reflexivity.
  - destruct (Hu1 [7%nat; 8%nat] map) as [_ [_ [_ [_ H]]]].
    apply Hcase; [|reflexivity]. intros g Hg.
    apply (proj2 (H g Hg)). right. left. exact Hne.
  - destruct (Hu1 [] []) as [_ [_ [_ [_ H]]]].
    apply Hcase; [|reflexivity]. intros g Hg.
    apply (proj2 (H g Hg)). right. left. exact Hne0.
  - destruct (Hu1 [9%nat] map) as [_ [_ [_ [_ H]]]].
    apply Hcase; [|reflexivity]. intros g Hg.
    apply (proj2 (H g Hg)). right. right.
    intros instance [= <-]. reflexivity.
  - destruct (He1 false) as [_ [_ [_ [_ H]]]].
    apply Hcase; [|reflexivity]. intros g Hg.
    apply (proj2 (H g Hg)). left. reflexivity.
  - destruct (He2 true) as [_ [_ [_ [_ H]]]].
    apply Hcase; [|reflexivity]. intros g Hg.
    apply (proj1 (H g Hg)).
    split; [reflexivity|]. exists 7%nat. split; reflexivity.
Defined.

(** ** The space of the gizmo *)

Lemma gizmo_toggleSpace_throws (g : Gizmo3DController.t) :
  Gizmo3DController.toggleSpace g = (g, Some TypeError).
Proof. reflexivity. Qed.

Lemma toggleSpace_throws (s : SelectedInstances3D.t) :
  SelectedInstances3D.toggleSpace s
  = (s, if SelectedInstances3D.isAvailable s then Some TypeError else None).
Proof.
  destruct s as [[g|] sel map md en]; reflexivity.
Qed.

(** C7, on the code.  The gizmo controller reads the space with
    [getSpace()], a member the transform widget does not have.  So
    [toggleSpace()] throws a [TypeError] and leaves the state as it
    was, on the gizmo controller always and on a [SelectedInstances3D]
    whenever it has one, and [getCurrentSpace()] throws as well: the
    space is not flipped, and it is 'local' in every state reached
    from the constructor, whatever is called.  On a newly constructed
    [SelectedInstances3D] with a 3D context, [toggleSpace()] throws
    and the widget stays in 'local'. *)
Theorem toggleSpace_throws_TypeError :
  forall (g : Gizmo3DController.t) (s : SelectedInstances3D.t)
         (props : SelectedInstances3D.Props) (ops : list Editor.Op)
         (w : SelectedInstances3D.World),
  Gizmo3DController.toggleSpace g = (g, Some TypeError)
  /\ SelectedInstances3D.toggleSpace s
     = (s, if SelectedInstances3D.isAvailable s then Some TypeError else None)
  /\ SelectedInstances3D.getCurrentSpace s
     = (if SelectedInstances3D.isAvailable s
        then Throws TypeError else Returns local)
  /\ match SelectedInstances3D._gizmoController
             (fst (Editor.run ops (SelectedInstances3D.constructor props, w)))
     with
     | Some g' =>
         THREE.TransformControls.space
           (Gizmo3DController._transformControls g') = local
     | None => True
     end
  /\ (let s0 := SelectedInstances3D.constructor Sample.full_props in
      SelectedInstances3D.isAvailable s0 = true
      /\ SelectedInstances3D.toggleSpace s0 = (s0, Some TypeError)
      /\ SelectedInstances3D.getCurrentSpace s0 = Throws TypeError).
Proof.
  intros g s props ops w.
  split; [apply gizmo_toggleSpace_throws|].
  split; [apply toggleSpace_throws|].
  split; [destruct s as [[g0|] sel map md en]; reflexivity|].
  split; [|repeat split].
  assert (H0 :
    match SelectedInstances3D._gizmoController
            (fst (SelectedInstances3D.constructor props, w)) with
    | Some g' =>
        THREE.TransformControls.space
          (Gizmo3DController._transformControls g') = local
    | None => True
    end).
  { simpl. destruct (SelectedInstances3D.threeRenderer props),
      (SelectedInstances3D.threeCamera props),
      (SelectedInstances3D.threeScene props); simpl; auto. }
  revert H0. generalize (SelectedInstances3D.constructor props, w).
  induction ops as [|op ops IH]; intros st Hst; [exact Hst|].
  simpl. apply IH. clear IH.
  destruct st as [[[g0|] sel map md en] w0]; simpl in Hst.
  2:{ destruct op; simpl; exact I. }
  destruct op; simpl.
  - rewrite updateSelection_with_gizmo. simpl.
    destruct (Nat.eqb (List.length instances) 1 && en);
      [destruct (SelectedInstances3D.get_first _ _)|];
      unfold Gizmo3DController.setObject; simpl;
      try destruct (Gizmo3DController._isEnabled g0); exact Hst.
  - exact Hst.
  - exact Hst.
  - rewrite setEnabled_with_gizmo. simpl.
    destruct enabled; simpl;
      [destruct (Nat.eqb (List.length sel) 1);
         [destruct (SelectedInstances3D.get_first _ _)|]|];
      unfold Gizmo3DController.setObject, Gizmo3DController.setEnabled; simpl;
      try destruct (Gizmo3DController._currentObject g0); simpl;
      try destruct enabled; exact Hst.
  - exact I.
  - exact Hst.
  - exact Hst.
  - destruct (THREE.TransformControls.listens _ _); exact Hst.
  - destruct (THREE.TransformControls.listens _ _); exact Hst.
Qed.

(** ** SelectedInstances3D without a 3D context *)

Lemma constructor_without_context (props : SelectedInstances3D.Props) :
  SelectedInstances3D.threeRenderer props = None
  \/ SelectedInstances3D.threeCamera props = None
  \/ SelectedInstances3D.threeScene props = None ->
  SelectedInstances3D._gizmoController (SelectedInstances3D.constructor props)
  = None.
Proof.
  unfold SelectedInstances3D.constructor. simpl.
  intros [H | [H | H]]; rewrite H;
    destruct (SelectedInstances3D.threeRenderer props);
    try destruct (SelectedInstances3D.threeCamera props); reflexivity.
Qed.

Lemma step_without_gizmo (op : Editor.Op) (st : Editor.State) :
  SelectedInstances3D._gizmoController (fst st) = None ->
  SelectedInstances3D._gizmoController (fst (Editor.step op st)) = None
  /\ snd (Editor.step op st) = snd st.
Proof.
  destruct st as [[g sel map md en] w]. simpl. intros ->.
  destruct op; simpl; split; reflexivity.
Qed.

Lemma run_without_gizmo (ops : list Editor.Op) (st : Editor.State) :
  SelectedInstances3D._gizmoController (fst st) = None ->
  SelectedInstances3D._gizmoController (fst (Editor.run ops st)) = None
  /\ snd (Editor.run ops st) = snd st.
Proof.
  revert st. induction ops as [|op ops IH]; intros st Hst; simpl.
  - split; [exact Hst | reflexivity].
  - destruct (step_without_gizmo op st Hst) as [Hg Hw].
    destruct (IH (Editor.step op st) Hg) as [Hg' Hw'].
    split; [exact Hg' | rewrite Hw'; exact Hw].
Qed.

(** C5, as the code has it.  A [SelectedInstances3D] constructed
    without a renderer, a camera or a scene has no gizmo controller and
    never gets one: whatever is called, [isAvailable()] and
    [isDragging()] answer false, [getCurrentSpace()] answers 'local',
    no node and no instance is touched and no callback is called, and
    [toggleSpace()] changes nothing.  The other methods still record
    what they are given: [updateSelection] the instances and the map,
    [setMode] the mode (which [getCurrentMode()] then answers),
    [setEnabled] the flag, and [dispose] empties the map. *)
Theorem without_context_no_gizmo :
  forall (props : SelectedInstances3D.Props) (ops : list Editor.Op)
         (w : SelectedInstances3D.World),
  SelectedInstances3D.threeRenderer props = None
  \/ SelectedInstances3D.threeCamera props = None
  \/ SelectedInstances3D.threeScene props = None ->
  let s := fst (Editor.run ops (SelectedInstances3D.constructor props, w)) in
  let w' := snd (Editor.run ops (SelectedInstances3D.constructor props, w)) in
  SelectedInstances3D.isAvailable (SelectedInstances3D.constructor props) = false
  /\ SelectedInstances3D.isAvailable s = false
  /\ SelectedInstances3D.isDragging s = false
  /\ SelectedInstances3D.getCurrentSpace s = Returns local
  /\ w' = w
  /\ SelectedInstances3D.toggleSpace s = (s, None)
  /\ (forall instances map,
        SelectedInstances3D.updateSelection instances map s
        = SelectedInstances3D.mk None instances map
            (SelectedInstances3D._currentMode s)
            (SelectedInstances3D._enabled s))
  /\ (forall mode,
        SelectedInstances3D.setMode mode s
        = SelectedInstances3D.mk None
            (SelectedInstances3D._selectedInstances s)
            (SelectedInstances3D._instanceToObjectMap s) mode
            (SelectedInstances3D._enabled s)
        /\ SelectedInstances3D.getCurrentMode
             (SelectedInstances3D.setMode mode s) = mode)
  /\ (forall enabled,
        SelectedInstances3D.setEnabled enabled s
        = SelectedInstances3D.mk None
            (SelectedInstances3D._selectedInstances s)
            (SelectedInstances3D._instanceToObjectMap s)
            (SelectedInstances3D._currentMode s) enabled)
  /\ SelectedInstances3D.dispose s
     = SelectedInstances3D.mk None
         (SelectedInstances3D._selectedInstances s) []
         (SelectedInstances3D._currentMode s)
         (SelectedInstances3D._enabled s).
Proof.
  intros props ops w Hprops s w'.
  pose proof (constructor_without_context props Hprops) as H0.
  destruct (run_without_gizmo ops
              (SelectedInstances3D.constructor props, w) H0) as [Hg Hw].
  fold s in Hg. fold w' in Hw. simpl in Hw.
  clearbody s w'. destruct s as [g sel map md en]. simpl in Hg. subst g.
  unfold SelectedInstances3D.isAvailable. rewrite H0.
  repeat split; try reflexivity. exact Hw.
Qed.

Lemma without_context_no_gizmo_witness :
  SelectedInstances3D.isAvailable
    (SelectedInstances3D.constructor Sample.no_props) = false
  /\ SelectedInstances3D.getCurrentSpace
       (fst (Editor.run [Editor.SetEnabled true; Editor.ToggleSpace]
               (SelectedInstances3D.constructor Sample.no_props,
                Sample.objects Sample.fresh_nodes
                  (Sample.instance 1 1 1 Sample.all)))) = Returns local.
Proof.
  pose proof
    (@without_context_no_gizmo Sample.no_props
       [Editor.SetEnabled true; Editor.ToggleSpace]
       (Sample.objects Sample.fresh_nodes (Sample.instance 1 1 1 Sample.all))
       (or_introl eq_refl)) as H.
  cbv zeta in H.
  destruct H as [H1 [_ [_ [H2 _]]]].
  split; [exact H1 | exact H2].
Defined.

(** C5, as the specification has it, fails: without a 3D context
    [setMode('rotate')] is not a no-op, since [getCurrentMode()]
    answers 'rotate' after it and 'translate' before. *)
Lemma setMode_without_context_is_observable :
  let s := SelectedInstances3D.constructor Sample.no_props in
  SelectedInstances3D.isAvailable s = false
  /\ SelectedInstances3D.getCurrentMode s = translate
  /\ SelectedInstances3D.getCurrentMode (SelectedInstances3D.setMode rotate s)
     = rotate
  /\ Editor.observe (SelectedInstances3D.setMode rotate s) <> Editor.observe s
  /\ ~ (forall op w, fst (Editor.step op (s, w)) = s).
Proof.
  simpl. repeat split; try discriminate.
  intros H.
  specialize (H (Editor.SetMode rotate)
                (Sample.objects Sample.fresh_nodes
                   (Sample.instance 1 1 1 Sample.all))).
  discriminate H.
Qed.

(** ** SelectedInstances3D: the handler of a completed edit *)

Lemma find_entry_none (map : SelectedInstances3D.InstanceMap)
  (o : THREE.Object3D) :
  (forall instance obj, In (instance, obj) map ->
     SelectedInstances3D.matches obj o = false)
  <-> SelectedInstances3D.find_entry map o = None.
Proof.
  induction map as [|[i obj] map IH]; simpl.
  - split; [reflexivity | intros _ ? ? []].
  - split.
    + intros H. rewrite (H i obj (or_introl eq_refl)).
      apply IH. intros j obj' Hin. apply (H j obj'). right. exact Hin.
    + destruct (SelectedInstances3D.matches obj o) eqn:Hm; [discriminate|].
      intros Hnone j obj' [Heq | Hin].
      * injection Heq as <- <-. exact Hm.
      * apply (proj2 IH Hnone j obj' Hin).
Qed.

Lemma find_entry_some (map : SelectedInstances3D.InstanceMap)
  (o : THREE.Object3D) (instance : nat) :
  SelectedInstances3D.find_entry map o = Some instance ->
  exists obj, In (instance, obj) map
              /\ SelectedInstances3D.matches obj o = true.
Proof.
  induction map as [|[i obj] map IH]; simpl; [discriminate|].
  destruct (SelectedInstances3D.matches obj o) eqn:Hm.
  - intros [= <-]. exists obj. split; [left; reflexivity | exact Hm].
  - intros H. destruct (IH H) as [obj' [Hin Hm']].
    exists obj'. split; [right; exact Hin | exact Hm'].
Qed.

(** The handler on a node with a pending edit that an instance matches:
    one branch, then the flag is cleared and the callback called. *)
Lemma onObjectChanged_pending (s : SelectedInstances3D.t) (o : THREE.Object3D)
  (transformType : string) (w : SelectedInstances3D.World) (instance : nat) :
  SelectedInstances3D._findInstanceForObject s o = Some instance ->
  THREE.UserData.needsUpdate
    (THREE.Node.userData (SelectedInstances3D.nodes w (THREE.uuid o))) = true ->
  SelectedInstances3D._onObjectChanged s o transformType w
  = let u := THREE.Node.userData (SelectedInstances3D.nodes w (THREE.uuid o)) in
    SelectedInstances3D.onInstanceTransformed instance transformType
      (SelectedInstances3D.clearNeedsUpdate o
         match SelectedInstances3D.branch transformType "translate"
                 (THREE.UserData.position u) with
         | Some position =>
             SelectedInstances3D.apply_translate instance position w
         | None =>
         match SelectedInstances3D.branch transformType "rotate"
                 (THREE.UserData.rotation u) with
         | Some rotation => SelectedInstances3D.apply_rotate instance rotation w
         | None =>
         match SelectedInstances3D.branch transformType "scale"
                 (THREE.UserData.scale u) with
         | Some scale_ => SelectedInstances3D.apply_scale instance scale_ w
         | None => w
         end end end).
Proof.
  intros Hfind Hneeds. unfold SelectedInstances3D._onObjectChanged.
  rewrite Hfind, Hneeds. reflexivity.
Qed.

Lemma upd_same {A : Type} (f : nat -> A) (k : nat) (v : A) : upd f k v k = v.
Proof. unfold upd. rewrite Nat.eqb_refl. reflexivity. Qed.

(** C9.  When no instance of the map is mapped to a node that is the
    edited node, a child of it or a descendant of it, the handler of a
    completed edit does nothing: no setter is called and the callback
    is not called (the calls made are the same), no instance changes,
    and the node keeps its [userData], so a pending [needsUpdate]
    stays set. *)
Theorem unmatched_node_is_ignored :
  forall (s : SelectedInstances3D.t) (o : THREE.Object3D)
         (transformType : string) (w : SelectedInstances3D.World),
  (forall instance obj,
     In (instance, obj) (SelectedInstances3D._instanceToObjectMap s) ->
     THREE.same obj o = false
     /\ (forall p, THREE.parent obj = Some p -> THREE.same p o = false)
     /\ SelectedInstances3D._isChildOf obj o = false) ->
  let w' := SelectedInstances3D._onObjectChanged s o transformType w in
  SelectedInstances3D.calls w' = SelectedInstances3D.calls w
  /\ SelectedInstances3D.instances w' = SelectedInstances3D.instances w
  /\ THREE.UserData.needsUpdate
       (THREE.Node.userData (SelectedInstances3D.nodes w' (THREE.uuid o)))
     = THREE.UserData.needsUpdate
         (THREE.Node.userData (SelectedInstances3D.nodes w (THREE.uuid o)))
  /\ w' = w.
Proof.
  intros s o transformType w Hno w'.
  assert (Hw : w' = w).
  { unfold w', SelectedInstances3D._onObjectChanged,
      SelectedInstances3D._findInstanceForObject.
    replace (SelectedInstances3D.find_entry
               (SelectedInstances3D._instanceToObjectMap s) o)
      with (@None nat); [reflexivity|].
    symmetry. apply find_entry_none. intros instance obj Hin.
    destruct (Hno instance obj Hin) as [H1 [H2 H3]].
    unfold SelectedInstances3D.matches. rewrite H1, H3.
    destruct (THREE.parent obj) as [p|]; [|reflexivity].
    rewrite (H2 p eq_refl). reflexivity. }
  rewrite Hw. repeat split.
Qed.

Lemma unmatched_node_is_ignored_witness :
  let w :=
    Sample.objects (Sample.pending Sample.other Sample.ones Sample.origin Sample.ones)
      (Sample.instance 6 8 0 Sample.all) in
  THREE.UserData.needsUpdate
    (THREE.Node.userData
       (SelectedInstances3D.nodes
          (SelectedInstances3D._onObjectChanged Sample.selecting_root
             Sample.other "translate" w) 3%nat)) = true
  /\ SelectedInstances3D.calls
       (SelectedInstances3D._onObjectChanged Sample.selecting_root
          Sample.other "translate" w) = [].
Proof.
  intros w.
  assert (Hno : forall instance obj,
     In (instance, obj)
        (SelectedInstances3D._instanceToObjectMap Sample.selecting_root) ->
     THREE.same obj Sample.other = false
     /\ (forall p, THREE.parent obj = Some p -> THREE.same p Sample.other = false)
     /\ SelectedInstances3D._isChildOf obj Sample.other = false).
  { intros instance obj [Heq | []]. injection Heq as <- <-.
    split; [reflexivity|]. split; [|reflexivity].
    intros p Hp. discriminate Hp. }
  pose proof (@unmatched_node_is_ignored Sample.selecting_root Sample.other
                "translate"%string w Hno) as H.
  cbv zeta in H. destruct H as [Hcalls [_ [Hneeds _]]].
  split; [exact (eq_trans Hneeds eq_refl) | exact (eq_trans Hcalls eq_refl)].
Defined.

(** The pending flag of a node goes from set to cleared only in a call
    that found an instance for the node. *)
Lemma needsUpdate_cleared_only_when_matched (s : SelectedInstances3D.t)
  (o : THREE.Object3D) (transformType : string)
  (w : SelectedInstances3D.World) :
  THREE.UserData.needsUpdate
    (THREE.Node.userData (SelectedInstances3D.nodes w (THREE.uuid o))) = true ->
  THREE.UserData.needsUpdate
    (THREE.Node.userData
       (SelectedInstances3D.nodes
          (SelectedInstances3D._onObjectChanged s o transformType w)
          (THREE.uuid o))) = false ->
  exists instance obj,
    SelectedInstances3D._findInstanceForObject s o = Some instance
    /\ In (instance, obj) (SelectedInstances3D._instanceToObjectMap s)
    /\ SelectedInstances3D.matches obj o = true.
Proof.
  intros Hset Hclear.
  destruct (SelectedInstances3D._findInstanceForObject s o) as [instance|]
    eqn:Hfind.
  - destruct (find_entry_some _ _ Hfind) as [obj [Hin Hm]].
    exists instance, obj. repeat split; assumption.
  - unfold SelectedInstances3D._onObjectChanged in Hclear.
    rewrite Hfind in Hclear. rewrite Hset in Hclear. discriminate Hclear.
Qed.

(** C2.  A completed translate edit on a node an instance matches sets
    the position of the instance to the position of the widget minus
    half the width and half the height of the instance, and, when the
    instance has [hasCustomSize] and [setZ], its Z to the Z of the
    widget minus half its depth (no depth when it has no [getDepth]);
    the three setters and the callback are the only calls, and the
    pending flag is cleared. *)
Theorem translate_edit_sets_position :
  forall (s : SelectedInstances3D.t) (o : THREE.Object3D)
         (w : SelectedInstances3D.World) (instance : nat) (p : THREE.Vector3),
  SelectedInstances3D._findInstanceForObject s o = Some instance ->
  THREE.UserData.needsUpdate
    (THREE.Node.userData (SelectedInstances3D.nodes w (THREE.uuid o))) = true ->
  THREE.UserData.position
    (THREE.Node.userData (SelectedInstances3D.nodes w (THREE.uuid o))) = Some p ->
  let i := SelectedInstances3D.instances w instance in
  let w' := SelectedInstances3D._onObjectChanged s o "translate" w in
  let i' := SelectedInstances3D.instances w' instance in
  let supportsZ :=
    gdInitialInstance.has i gdInitialInstance.hasCustomSize
    && gdInitialInstance.has i gdInitialInstance.setZ in
  let depth :=
    if gdInitialInstance.has i gdInitialInstance.getDepth
    then gdInitialInstance.Depth i else 0 in
  gdInitialInstance.X i' = THREE.x p - gdInitialInstance.Width i / 2
  /\ gdInitialInstance.Y i' = THREE.y p - gdInitialInstance.Height i / 2
  /\ gdInitialInstance.Z i'
     = (if supportsZ then THREE.z p - depth / 2 else gdInitialInstance.Z i)
  /\ SelectedInstances3D.calls w'
     = SelectedInstances3D.calls w
       ++ [SelectedInstances3D.Invoke instance gdInitialInstance.SetX
             (THREE.x p - gdInitialInstance.Width i / 2);
           SelectedInstances3D.Invoke instance gdInitialInstance.SetY
             (THREE.y p - gdInitialInstance.Height i / 2)]
       ++ (if supportsZ
           then [SelectedInstances3D.Invoke instance gdInitialInstance.SetZ
                   (THREE.z p - depth / 2)]
           else [])
       ++ [SelectedInstances3D.Transformed instance "translate"]
  /\ THREE.UserData.needsUpdate
       (THREE.Node.userData (SelectedInstances3D.nodes w' (THREE.uuid o)))
     = false.
Proof.
  intros s o w instance p Hfind Hneeds Hpos i w' i' supportsZ depth.
  unfold i', w'. rewrite (onObjectChanged_pending s o _ w Hfind Hneeds).
  cbv zeta. unfold SelectedInstances3D.branch. simpl String.eqb. cbv iota.
  rewrite Hpos.
  unfold SelectedInstances3D.apply_translate, SelectedInstances3D.invoke.
  simpl. rewrite !upd_same. simpl.
  fold i. fold supportsZ. fold depth.
  destruct supportsZ; simpl; rewrite ?upd_same; simpl;
    rewrite <- ?app_assoc; simpl; repeat split; reflexivity.
Qed.

Lemma translate_edit_sets_position_witness :
  let w :=
    Sample.objects
      (Sample.pending Sample.root (THREE.mkVector3 10 4 0) Sample.origin
         Sample.ones)
      (Sample.instance 6 8 0 Sample.plain3d) in
  let w' :=
    SelectedInstances3D._onObjectChanged Sample.selecting_root Sample.root
      "translate" w in
  gdInitialInstance.X (SelectedInstances3D.instances w' 7%nat) = 7
  /\ gdInitialInstance.Y (SelectedInstances3D.instances w' 7%nat) = 0.
Proof.
  intros w w'.
  pose proof (@translate_edit_sets_position Sample.selecting_root Sample.root
                w 7%nat (THREE.mkVector3 10 4 0) eq_refl eq_refl eq_refl) as H.
  cbv zeta in H. destruct H as [HX [HY _]].
  split.
  - unfold w'. rewrite HX. simpl. lra.
  - unfold w'. rewrite HY. simpl. lra.
Defined.

(** The same edit from end to end: the gizmo is enabled, instance 7 is
    selected, the widget moves its node to (10, 4, 0) and dispatches
    'change' and 'objectChange'. *)
Example completed_translate_edit :
  let st :=
    Editor.run
      [Editor.SetEnabled true;
       Editor.UpdateSelection [7%nat] [(7%nat, Sample.root)];
       Editor.WidgetMoves (THREE.mkVector3 10 4 0) Sample.origin Sample.ones;
       Editor.Change;
       Editor.ObjectChange]
      (SelectedInstances3D.constructor Sample.full_props,
       Sample.objects Sample.fresh_nodes (Sample.instance 6 8 0 Sample.plain3d)) in
  gdInitialInstance.X (SelectedInstances3D.instances (snd st) 7%nat) = 7
  /\ gdInitialInstance.Y (SelectedInstances3D.instances (snd st) 7%nat) = 0
  /\ gdInitialInstance.Z (SelectedInstances3D.instances (snd st) 7%nat) = 0
  /\ THREE.UserData.needsUpdate
       (THREE.Node.userData (SelectedInstances3D.nodes (snd st) 1%nat)) = false
  /\ List.length (SelectedInstances3D.calls (snd st)) = 4%nat.
Proof.
  simpl. repeat split; try reflexivity; lra.
Qed.

(** C3, as the code has it.  A completed scale edit on a node an
    instance matches sets the width and the height of the instance to
    the original width and height (what [_getOriginalWidth] and
    [_getOriginalHeight] answer when the instance has them, its
    current width and height otherwise) times the absolute value of
    the scale of the widget on that axis.  The depth is set the same
    way, from [_getOriginalDepth], only when the instance has both
    [setDepth] and [_getOriginalDepth]; otherwise it is left as it is. *)
Theorem scale_edit_sets_size :
  forall (s : SelectedInstances3D.t) (o : THREE.Object3D)
         (w : SelectedInstances3D.World) (instance : nat) (sc : THREE.Vector3),
  SelectedInstances3D._findInstanceForObject s o = Some instance ->
  THREE.UserData.needsUpdate
    (THREE.Node.userData (SelectedInstances3D.nodes w (THREE.uuid o))) = true ->
  THREE.UserData.scale
    (THREE.Node.userData (SelectedInstances3D.nodes w (THREE.uuid o))) = Some sc ->
  let i := SelectedInstances3D.instances w instance in
  let w' := SelectedInstances3D._onObjectChanged s o "scale" w in
  let i' := SelectedInstances3D.instances w' instance in
  let originalWidth :=
    if gdInitialInstance.has i gdInitialInstance._getOriginalWidth
    then gdInitialInstance.OriginalWidth i else gdInitialInstance.Width i in
  let originalHeight :=
    if gdInitialInstance.has i gdInitialInstance._getOriginalHeight
    then gdInitialInstance.OriginalHeight i else gdInitialInstance.Height i in
  let supportsDepth :=
    gdInitialInstance.has i gdInitialInstance.setDepth
    && gdInitialInstance.has i gdInitialInstance._getOriginalDepth in
  gdInitialInstance.Width i' = originalWidth * Rabs (THREE.x sc)
  /\ gdInitialInstance.Height i' = originalHeight * Rabs (THREE.y sc)
  /\ gdInitialInstance.Depth i'
     = (if supportsDepth
        then gdInitialInstance.OriginalDepth i * Rabs (THREE.z sc)
        else gdInitialInstance.Depth i)
  /\ SelectedInstances3D.calls w'
     = SelectedInstances3D.calls w
       ++ [SelectedInstances3D.Invoke instance gdInitialInstance.SetWidth
             (originalWidth * Rabs (THREE.x sc));
           SelectedInstances3D.Invoke instance gdInitialInstance.SetHeight
             (originalHeight * Rabs (THREE.y sc))]
       ++ (if supportsDepth
           then [SelectedInstances3D.Invoke instance gdInitialInstance.SetDepth
                   (gdInitialInstance.OriginalDepth i * Rabs (THREE.z sc))]
           else [])
       ++ [SelectedInstances3D.Transformed instance "scale"]
  /\ THREE.UserData.needsUpdate
       (THREE.Node.userData (SelectedInstances3D.nodes w' (THREE.uuid o)))
     = false.
Proof.
  intros s o w instance sc Hfind Hneeds Hsc i w' i' originalWidth
    originalHeight supportsDepth.
  unfold i', w'. rewrite (onObjectChanged_pending s o _ w Hfind Hneeds).
  cbv zeta. unfold SelectedInstances3D.branch. simpl String.eqb. cbv iota.
  rewrite Hsc.
  unfold SelectedInstances3D.apply_scale, SelectedInstances3D.invoke.
  simpl. rewrite !upd_same. simpl.
  fold i. fold originalWidth. fold originalHeight. fold supportsDepth.
  destruct supportsDepth; simpl; rewrite ?upd_same; simpl;
    rewrite <- ?app_assoc; simpl; repeat split; reflexivity.
Qed.

Lemma scale_edit_sets_size_witness :
  let w :=
    Sample.objects
      (Sample.pending Sample.root Sample.origin Sample.origin
         (THREE.mkVector3 (-2) 1 1))
      (Sample.instance 10 8 0 Sample.plain3d) in
  let w' :=
    SelectedInstances3D._onObjectChanged Sample.selecting_root Sample.root
      "scale" w in
  gdInitialInstance.Width (SelectedInstances3D.instances w' 7%nat) = 20.
Proof.
  intros w w'.
  pose proof (@scale_edit_sets_size Sample.selecting_root Sample.root
                w 7%nat (THREE.mkVector3 (-2) 1 1) eq_refl eq_refl eq_refl) as H.
  cbv zeta in H. destruct H as [HW _].
  unfold w'. rewrite HW. simpl.
  rewrite Rabs_left by lra. lra.
Defined.

(** C3, as the specification has it, fails on the depth.  An instance
    of depth 5 with [setDepth] but no [_getOriginalDepth], scaled by 2
    on Z, keeps its depth of 5; [setDepth] is not called. *)
Lemma scale_edit_keeps_depth :
  let w :=
    Sample.objects
      (Sample.pending Sample.root Sample.origin Sample.origin
         (THREE.mkVector3 (-2) 1 2))
      (Sample.instance 10 8 5 Sample.plain3d) in
  let w' :=
    SelectedInstances3D._onObjectChanged Sample.selecting_root Sample.root
      "scale" w in
  gdInitialInstance.Depth (SelectedInstances3D.instances w 7%nat) = 5
  /\ gdInitialInstance.Depth (SelectedInstances3D.instances w' 7%nat) = 5
  /\ gdInitialInstance.Depth (SelectedInstances3D.instances w' 7%nat)
     <> gdInitialInstance.Depth (SelectedInstances3D.instances w 7%nat)
        * Rabs 2
  /\ forall v,
       ~ In (SelectedInstances3D.Invoke 7 gdInitialInstance.SetDepth v)
            (SelectedInstances3D.calls w').
Proof.
  intros w w'.
  assert (Hd : gdInitialInstance.Depth (SelectedInstances3D.instances w' 7%nat)
               = 5) by reflexivity.
  split; [reflexivity|]. split; [exact Hd|]. split.
  - rewrite Hd. simpl. rewrite Rabs_right by lra. lra.
  - intros v. simpl. intros [H | [H | [H | []]]]; discriminate H.
Qed.

(** C4, as the code has it.  A completed rotate edit on a node an
    instance matches sets the angle of the instance to the Z rotation
    of the widget converted from radians to degrees when the instance
    has [setAngle], and its rotations about X and Y to those of the
    widget, converted the same way, when it has [setRotationX] and
    [setRotationY]; a property whose setter the instance lacks is left
    as it is. *)
Theorem rotate_edit_sets_angles :
  forall (s : SelectedInstances3D.t) (o : THREE.Object3D)
         (w : SelectedInstances3D.World) (instance : nat) (r : THREE.Vector3),
  SelectedInstances3D._findInstanceForObject s o = Some instance ->
  THREE.UserData.needsUpdate
    (THREE.Node.userData (SelectedInstances3D.nodes w (THREE.uuid o))) = true ->
  THREE.UserData.rotation
    (THREE.Node.userData (SelectedInstances3D.nodes w (THREE.uuid o))) = Some r ->
  let i := SelectedInstances3D.instances w instance in
  let w' := SelectedInstances3D._onObjectChanged s o "rotate" w in
  let i' := SelectedInstances3D.instances w' instance in
  gdInitialInstance.Angle i'
  = (if gdInitialInstance.has i gdInitialInstance.setAngle
     then THREE.z r * 180 / PI else gdInitialInstance.Angle i)
  /\ gdInitialInstance.RotationX i'
     = (if gdInitialInstance.has i gdInitialInstance.setRotationX
        then THREE.x r * 180 / PI else gdInitialInstance.RotationX i)
  /\ gdInitialInstance.RotationY i'
     = (if gdInitialInstance.has i gdInitialInstance.setRotationY
        then THREE.y r * 180 / PI else gdInitialInstance.RotationY i)
  /\ SelectedInstances3D.calls w'
     = SelectedInstances3D.calls w
       ++ (if gdInitialInstance.has i gdInitialInstance.setAngle
           then [SelectedInstances3D.Invoke instance gdInitialInstance.SetAngle
                   (THREE.z r * 180 / PI)]
           else [])
       ++ (if gdInitialInstance.has i gdInitialInstance.setRotationX
           then [SelectedInstances3D.Invoke instance
                   gdInitialInstance.SetRotationX (THREE.x r * 180 / PI)]
           else [])
       ++ (if gdInitialInstance.has i gdInitialInstance.setRotationY
           then [SelectedInstances3D.Invoke instance
                   gdInitialInstance.SetRotationY (THREE.y r * 180 / PI)]
           else [])
       ++ [SelectedInstances3D.Transformed instance "rotate"]
  /\ THREE.UserData.needsUpdate
       (THREE.Node.userData (SelectedInstances3D.nodes w' (THREE.uuid o)))
     = false.
Proof.
  intros s o w instance r Hfind Hneeds Hrot i w' i'.
  unfold i', w'. rewrite (onObjectChanged_pending s o _ w Hfind Hneeds).
  cbv zeta. unfold SelectedInstances3D.branch. simpl String.eqb. cbv iota.
  rewrite Hrot.
  unfold SelectedInstances3D.apply_rotate, SelectedInstances3D.invoke.
  fold i.
  destruct (gdInitialInstance.has i gdInitialInstance.setAngle) eqn:Ha;
    simpl; rewrite ?upd_same; simpl; fold i; rewrite ?Ha;
    destruct (gdInitialInstance.has i gdInitialInstance.setRotationX) eqn:Hx;
    simpl; rewrite ?upd_same; simpl; fold i; rewrite ?Ha, ?Hx;
    destruct (gdInitialInstance.has i gdInitialInstance.setRotationY) eqn:Hy;
    simpl; rewrite ?upd_same; simpl; fold i; rewrite ?Ha, ?Hx, ?Hy;
    rewrite <- ?app_assoc; simpl; repeat split; reflexivity.
Qed.

Lemma rotate_edit_sets_angles_witness :
  let w :=
    Sample.objects
      (Sample.pending Sample.root Sample.origin (THREE.mkVector3 0 0 PI)
         Sample.ones)
      (Sample.instance 6 8 0 Sample.plain3d) in
  let w' :=
    SelectedInstances3D._onObjectChanged Sample.selecting_root Sample.root
      "rotate" w in
  gdInitialInstance.Angle (SelectedInstances3D.instances w' 7%nat) = 180.
Proof.
  intros w w'.
  pose proof (@rotate_edit_sets_angles Sample.selecting_root Sample.root
                w 7%nat (THREE.mkVector3 0 0 PI) eq_refl eq_refl eq_refl) as H.
  cbv zeta in H. destruct H as [HA _].
  unfold w'. rewrite HA. simpl.
  field. exact PI_neq0.
Defined.

(** C4, as the specification has it, fails on the yaw.  On an instance
    without [setAngle] a rotate edit of pi radians about Z leaves the
    angle at 0 and calls no [setAngle]. *)
Lemma rotate_edit_keeps_angle :
  let w :=
    Sample.objects
      (Sample.pending Sample.root Sample.origin (THREE.mkVector3 0 0 PI)
         Sample.ones)
      (Sample.instance 6 8 0 Sample.no_yaw) in
  let w' :=
    SelectedInstances3D._onObjectChanged Sample.selecting_root Sample.root
      "rotate" w in
  gdInitialInstance.Angle (SelectedInstances3D.instances w' 7%nat) = 0
  /\ gdInitialInstance.Angle (SelectedInstances3D.instances w' 7%nat)
     <> PI * 180 / PI
  /\ forall v,
       ~ In (SelectedInstances3D.Invoke 7 gdInitialInstance.SetAngle v)
            (SelectedInstances3D.calls w').
Proof.
  intros w w'.
  assert (Ha : gdInitialInstance.Angle (SelectedInstances3D.instances w' 7%nat)
               = 0) by reflexivity.
  split; [exact Ha|]. split.
  - rewrite Ha. replace (PI * 180 / PI) with 180 by (field; exact PI_neq0). lra.
  - intros v. simpl. intros [H | [H | [H | []]]]; discriminate H.
Qed.

(** ** FreeCameraController *)

Section Camera.

Variable applyQuaternion :
  THREE.Vector3 -> FreeCameraController.Quaternion -> THREE.Vector3.
Variable lookAt :
  FreeCameraController.Camera -> THREE.Vector3 -> FreeCameraController.Camera.

Local Abbreviation update := (FreeCameraController.update applyQuaternion lookAt).
Local Abbreviation updates := (FreeCameraController.updates applyQuaternion lookAt).

Lemma disable_disables (s : FreeCameraController.t) :
  FreeCameraController._isEnabled (FreeCameraController.disable s) = false.
Proof.
  unfold FreeCameraController.disable.
  destruct (FreeCameraController._isEnabled s) eqn:H; simpl; [reflexivity|exact H].
Qed.

Lemma keyboard_movement_keeps (s : FreeCameraController.t) :
  let s' := FreeCameraController._updateKeyboardMovement applyQuaternion s in
  FreeCameraController._spherical s' = FreeCameraController._spherical s
  /\ FreeCameraController._sphericalTarget s'
     = FreeCameraController._sphericalTarget s
  /\ FreeCameraController._distance s' = FreeCameraController._distance s
  /\ FreeCameraController._targetDistance s'
     = FreeCameraController._targetDistance s
  /\ FreeCameraController._isEnabled s' = FreeCameraController._isEnabled s.
Proof.
  unfold FreeCameraController._updateKeyboardMovement.
  destruct (negb (FreeCameraController._enableKeys s)); simpl;
    [repeat split|].
  destruct (Rlt_dec 0 _); simpl; repeat split.
Qed.

Lemma update_current (c : FreeCameraController.Coordinate)
  (s : FreeCameraController.t) :
  FreeCameraController._isEnabled s = true ->
  FreeCameraController.current c (update s)
  = FreeCameraController.current c s
    + (FreeCameraController.target c s - FreeCameraController.current c s)
      * FreeCameraController.dampingFactor.
Proof.
  intros Hen. unfold FreeCameraController.update.
  rewrite Hen. simpl.
  destruct (keyboard_movement_keeps s) as [Hs [Ht [Hd [Htd _]]]].
  destruct c; simpl; rewrite ?Hs, ?Ht, ?Hd, ?Htd; reflexivity.
Qed.

Lemma update_target (c : FreeCameraController.Coordinate)
  (s : FreeCameraController.t) :
  FreeCameraController.target c (update s) = FreeCameraController.target c s.
Proof.
  unfold FreeCameraController.update.
  destruct (negb (FreeCameraController._isEnabled s)); [reflexivity|].
  destruct (keyboard_movement_keeps s) as [_ [Ht [_ [Htd _]]]].
  destruct c; simpl; rewrite ?Ht, ?Htd; reflexivity.
Qed.

Lemma update_isEnabled (s : FreeCameraController.t) :
  FreeCameraController._isEnabled (update s)
  = FreeCameraController._isEnabled s.
Proof.
  unfold FreeCameraController.update.
  destruct (negb (FreeCameraController._isEnabled s)); [reflexivity|].
  simpl. apply keyboard_movement_keeps.
Qed.

(** One damping step with a factor strictly between 0 and 1 stays
    between where it started and where it is heading. *)
Lemma damping_step_between (d cur tgt : R) :
  0 < d < 1 ->
  FreeCameraController.between cur tgt (cur + (tgt - cur) * d).
Proof.
  intros [Hd0 Hd1]. unfold FreeCameraController.between, Rmin, Rmax.
  destruct (Rle_dec cur tgt); nra.
Qed.

Lemma updates_gap (c : FreeCameraController.Coordinate) (n : nat) :
  forall s : FreeCameraController.t,
  FreeCameraController._isEnabled s = true ->
  FreeCameraController.target c (updates n s)
  - FreeCameraController.current c (updates n s)
  = (1 - FreeCameraController.dampingFactor) ^ n
    * (FreeCameraController.target c s - FreeCameraController.current c s).
Proof.
  induction n as [|n IH]; intros s Hen.
  - simpl. lra.
  - simpl FreeCameraController.updates.
    rewrite IH by (rewrite update_isEnabled; exact Hen).
    rewrite update_target, (update_current c s Hen). simpl. ring.
Qed.

(** C6.  On an enabled controller a call of [update()] adds to each of
    the current theta, phi and distance the damping factor, 0.1, times
    what separates it from its target, and leaves the targets alone,
    whatever the keys held.  So what remains to the target is
    multiplied by 0.9 at each call, by 0.9^n after n calls, and the new
    value lies between the old value and the target. *)
Theorem update_damps_towards_target :
  forall (s : FreeCameraController.t) (c : FreeCameraController.Coordinate),
  FreeCameraController._isEnabled s = true ->
  let d := FreeCameraController.dampingFactor in
  let delta :=
    FreeCameraController.target c s - FreeCameraController.current c s in
  d = 0.1
  /\ FreeCameraController.current c (update s)
     = FreeCameraController.current c s + d * delta
  /\ FreeCameraController.target c (update s) = FreeCameraController.target c s
  /\ FreeCameraController.target c (update s)
     - FreeCameraController.current c (update s) = (1 - d) * delta
  /\ (forall n,
        FreeCameraController.target c (updates n s)
        - FreeCameraController.current c (updates n s) = (1 - d) ^ n * delta)
  /\ FreeCameraController.between (FreeCameraController.current c s)
       (FreeCameraController.target c s)
       (FreeCameraController.current c (update s)).
Proof.
  intros s c Hen d delta.
  pose proof (update_current c s Hen) as Hcur.
  pose proof (update_target c s) as Htgt.
  assert (Hd : d = 0.1) by reflexivity.
  fold d in Hcur. fold delta in Hcur.
  split; [exact Hd|].
  split; [rewrite Hcur; ring|].
  split; [exact Htgt|].
  split; [rewrite Htgt, Hcur; unfold delta; ring|].
  split; [intros n; apply updates_gap; exact Hen|].
  rewrite (update_current c s Hen). apply damping_step_between.
  unfold FreeCameraController.dampingFactor. lra.
Qed.

(** C8.  On a disabled controller the handlers of mouse down, mouse
    move, mouse up, wheel, key down and key up, and [update()], return
    the state they were given, whole, and none of the handlers calls
    [preventDefault]. *)
Theorem disabled_controller_ignores_input :
  forall (s : FreeCameraController.t),
  FreeCameraController._isEnabled s = false ->
  (forall i : FreeCameraController.Input,
     FreeCameraController.handle i s = (s, false))
  /\ update s = s.
Proof.
  intros s Hdis. split.
  - intros i.
    destruct i; simpl;
      unfold FreeCameraController._onMouseDown,
        FreeCameraController._onMouseMove, FreeCameraController._onMouseUp,
        FreeCameraController._onWheel, FreeCameraController._onKeyDown,
        FreeCameraController._onKeyUp;
      rewrite Hdis; reflexivity.
  - unfold FreeCameraController.update. rewrite Hdis. reflexivity.
Qed.

(** After [disable()] no input changes the state. *)
Corollary input_after_disable_is_ignored (s : FreeCameraController.t)
  (i : FreeCameraController.Input) :
  FreeCameraController.handle i (FreeCameraController.disable s)
  = (FreeCameraController.disable s, false).
Proof.
  unfold FreeCameraController.handle,
    FreeCameraController._onMouseDown,
    FreeCameraController._onMouseMove, FreeCameraController._onMouseUp,
    FreeCameraController._onWheel, FreeCameraController._onKeyDown,
    FreeCameraController._onKeyUp.
  rewrite disable_disables. destruct i; reflexivity.
Qed.

End Camera.

Lemma update_damps_towards_target_witness :
  let down := FreeCameraController.mkMouseEvent 0 0 0 in
  let move := FreeCameraController.mkMouseEvent 0 (-200) 0 in
  let s0 := FreeCameraController.enable Sample.controller in
  let s1 := fst (FreeCameraController.handle (FreeCameraController.MouseDown down) s0) in
  let s2 := fst (FreeCameraController.handle (FreeCameraController.MouseMove move) s1) in
  let s3 := FreeCameraController.update Sample.applyQuaternion Sample.lookAt s2 in
  FreeCameraController.current FreeCameraController.Theta s2 = 0
  /\ FreeCameraController.target FreeCameraController.Theta s2 = 2
  /\ FreeCameraController.current FreeCameraController.Theta s3 = 0.2
  /\ FreeCameraController.target FreeCameraController.Theta s3
     - FreeCameraController.current FreeCameraController.Theta s3 = 1.8.
Proof.
  intros down move s0 s1 s2 s3.
  pose proof (@update_damps_towards_target Sample.applyQuaternion Sample.lookAt
                s2 FreeCameraController.Theta eq_refl) as H.
  cbv zeta in H. destruct H as [_ [Hcur [_ [Hgap _]]]].
  assert (H0 : FreeCameraController.current FreeCameraController.Theta s2 = 0)
    by reflexivity.
  assert (H2 : FreeCameraController.target FreeCameraController.Theta s2 = 2)
    by (simpl; lra).
  split; [exact H0|]. split; [exact H2|]. split.
  - unfold s3. rewrite Hcur, H0, H2.
    unfold FreeCameraController.dampingFactor. lra.
  - unfold s3. rewrite Hgap, H0, H2.
    unfold FreeCameraController.dampingFactor. lra.
Defined.

Lemma disabled_controller_ignores_input_witness :
  FreeCameraController.handle
    (FreeCameraController.MouseDown (FreeCameraController.mkMouseEvent 0 3 4))
    Sample.controller = (Sample.controller, false)
  /\ FreeCameraController.handle
       (FreeCameraController.Wheel (FreeCameraController.mkWheelEvent 120))
       Sample.controller = (Sample.controller, false)
  /\ FreeCameraController.update Sample.applyQuaternion Sample.lookAt
       Sample.controller = Sample.controller.
Proof.
  pose proof (@disabled_controller_ignores_input Sample.applyQuaternion
                Sample.lookAt Sample.controller eq_refl) as [Hh Hu].
  split; [apply Hh|]. split; [apply Hh | exact Hu].
Defined.

(** * Further properties *)

(** ** Gizmo3DController: any sequence of calls *)

Lemma gizmo_call_keeps (c : GizmoCalls.Call) (g : Gizmo3DController.t) :
  Gizmo3DController.attached g
  = (if Gizmo3DController._isEnabled g
     then Gizmo3DController._currentObject g else None)
  /\ THREE.TransformControls.mode (Gizmo3DController._transformControls g)
     = Gizmo3DController._currentMode g ->
  Gizmo3DController.attached (GizmoCalls.call c g)
  = (if Gizmo3DController._isEnabled (GizmoCalls.call c g)
     then Gizmo3DController._currentObject (GizmoCalls.call c g) else None)
  /\ THREE.TransformControls.mode
       (Gizmo3DController._transformControls (GizmoCalls.call c g))
     = Gizmo3DController._currentMode (GizmoCalls.call c g).
Proof.
  unfold Gizmo3DController.attached.
  destruct g as [r cam sc [o m sp sz en vi dr ls di] cur md en'].
  simpl. intros [Hatt Hmode].
  destruct c as [object | mode | | enabled | ]; simpl.
  - destruct object as [ob|]; destruct en'; simpl; auto.
  - auto.
  - auto.
  - destruct enabled; simpl; [destruct cur; simpl|]; auto.
    split; [|exact Hmode]. rewrite Hatt. destruct en'; reflexivity.
  - auto.
Qed.

(** Whatever the public methods called on a new gizmo controller, and in
    whatever order, the widget is attached to the recorded node when
    the controller is enabled and to nothing when it is disabled, and
    the widget's mode is the controller's. *)
Theorem gizmo_widget_follows_controller :
  forall (l : list GizmoCalls.Call) (threeRenderer threeCamera : nat)
         (threeScene : THREE.Scene),
  let g :=
    GizmoCalls.calls l
      (Gizmo3DController.constructor threeRenderer threeCamera threeScene) in
  Gizmo3DController.attached g
  = (if Gizmo3DController._isEnabled g
     then Gizmo3DController._currentObject g else None)
  /\ THREE.TransformControls.mode (Gizmo3DController._transformControls g)
     = Gizmo3DController.getCurrentMode g.
Proof.
  intros l r cam sc.
  assert (H0 :
    Gizmo3DController.attached (Gizmo3DController.constructor r cam sc)
    = (if Gizmo3DController._isEnabled (Gizmo3DController.constructor r cam sc)
       then Gizmo3DController._currentObject
              (Gizmo3DController.constructor r cam sc) else None)
    /\ THREE.TransformControls.mode
         (Gizmo3DController._transformControls
            (Gizmo3DController.constructor r cam sc))
       = Gizmo3DController._currentMode
           (Gizmo3DController.constructor r cam sc)).
  { split; reflexivity. }
  revert H0. generalize (Gizmo3DController.constructor r cam sc).
  induction l as [|c l IH]; intros g Hg.
  - exact Hg.
  - simpl. apply IH. apply gizmo_call_keeps. exact Hg.
Qed.

Lemma setObject_setObject (g : Gizmo3DController.t)
  (o1 o2 : option THREE.Object3D) :
  Gizmo3DController.setObject o2 (Gizmo3DController.setObject o1 g)
  = Gizmo3DController.setObject o2 g.
Proof.
  destruct g as [r cam sc [o m sp sz en vi dr ls di] cur md en'].
  unfold Gizmo3DController.setObject. simpl.
  destruct o1, o2, en'; reflexivity.
Qed.

(** Of two [setObject] calls in a row only the second counts: the
    controller and its widget end as if the first had not been made. *)
Theorem setObject_last_wins :
  forall (g : Gizmo3DController.t) (o1 o2 : option THREE.Object3D),
  Gizmo3DController.setObject o2 (Gizmo3DController.setObject o1 g)
  = Gizmo3DController.setObject o2 g.
Proof.
  intros g o1 o2. apply setObject_setObject.
Qed.

(** [setEnabled] is idempotent: enabling an enabled controller, or
    disabling a disabled one, that was put in that state by
    [setEnabled], changes nothing. *)
Theorem gizmo_setEnabled_idempotent :
  forall (g : Gizmo3DController.t) (enabled : bool),
  Gizmo3DController.setEnabled enabled
    (Gizmo3DController.setEnabled enabled g)
  = Gizmo3DController.setEnabled enabled g.
Proof.
  intros [r cam sc [o m sp sz en vi dr ls di] cur md en'] enabled.
  unfold Gizmo3DController.setEnabled. simpl.
  destruct enabled, cur; reflexivity.
Qed.

(** The 'change' listener snapshots the transform of the recorded node
    into its [userData] and flags it, leaves the transform itself and
    every other node as they are, and does nothing when no node is
    recorded. *)
Theorem controls_change_snapshots_node :
  forall (g : Gizmo3DController.t) (nodes : THREE.Nodes),
  let nodes' := Gizmo3DController._onControlsChange g nodes in
  match Gizmo3DController._currentObject g with
  | None => nodes' = nodes
  | Some o =>
      let n := nodes (THREE.uuid o) in
      let n' := nodes' (THREE.uuid o) in
      THREE.UserData.needsUpdate (THREE.Node.userData n') = true
      /\ THREE.UserData.position (THREE.Node.userData n')
         = Some (THREE.Node.position n)
      /\ THREE.UserData.rotation (THREE.Node.userData n')
         = Some (THREE.Node.rotation n)
      /\ THREE.UserData.scale (THREE.Node.userData n')
         = Some (THREE.Node.scale n)
      /\ THREE.Node.position n' = THREE.Node.position n
      /\ THREE.Node.rotation n' = THREE.Node.rotation n
      /\ THREE.Node.scale n' = THREE.Node.scale n
      /\ forall k, k <> THREE.uuid o -> nodes' k = nodes k
  end.
Proof.
  intros g nodes.
  unfold Gizmo3DController._onControlsChange,
    Gizmo3DController._updateObject3DFromControls.
  destruct (Gizmo3DController._currentObject g) as [o|]; [|reflexivity].
  cbv zeta. rewrite upd_same. simpl.
  destruct (THREE.Node.position (nodes (THREE.uuid o))),
    (THREE.Node.rotation (nodes (THREE.uuid o))),
    (THREE.Node.scale (nodes (THREE.uuid o))).
  simpl. repeat split.
  intros k Hk. unfold upd.
  destruct (Nat.eqb k (THREE.uuid o)) eqn:E; [|reflexivity].
  apply Nat.eqb_eq in E. contradiction.
Qed.

(** ** The scene graph and the search of an instance *)

(** [_isChildOf(child, parent)] answers true exactly when [parent] is
    among the ancestors of [child]; so the test [obj.parent === object]
    of [_findInstanceForObject] adds nothing to the other two. *)
Theorem isChildOf_is_ancestor :
  forall (child object : THREE.Object3D),
  SelectedInstances3D._isChildOf child object
  = existsb (fun a => THREE.same a object) (ancestors child)
  /\ SelectedInstances3D.matches child object
     = (THREE.same child object
        || SelectedInstances3D._isChildOf child object).
Proof.
  assert (H : forall child object,
    SelectedInstances3D._isChildOf child object
    = existsb (fun a => THREE.same a object) (ancestors child)).
  { fix IH 1. intros [id [p|]] object; simpl; [|reflexivity].
    destruct (THREE.same p object); [reflexivity|]. apply IH. }
  intros child object. split; [apply H|].
  unfold SelectedInstances3D.matches.
  destruct child as [id [p|]]; simpl.
  - destruct (THREE.same p object); simpl.
    + rewrite !orb_true_r. reflexivity.
    + rewrite orb_false_r. reflexivity.
  - rewrite !orb_false_r. reflexivity.
Qed.

(** [_findInstanceForObject] answers the instance of the first entry of
    the map, in insertion order, whose node matches: the entries before
    it do not match, whatever comes after. *)
Theorem findInstance_first_match :
  forall (s : SelectedInstances3D.t) (object : THREE.Object3D) (instance : nat),
  SelectedInstances3D._findInstanceForObject s object = Some instance
  <-> exists before obj after,
        SelectedInstances3D._instanceToObjectMap s
        = before ++ (instance, obj) :: after
        /\ SelectedInstances3D.matches obj object = true
        /\ forall e, In e before ->
             SelectedInstances3D.matches (snd e) object = false.
Proof.
  intros s object instance.
  unfold SelectedInstances3D._findInstanceForObject.
  generalize (SelectedInstances3D._instanceToObjectMap s). intros map.
  induction map as [|[i obj] map IH]; simpl.
  - split; [discriminate|].
    intros [before [obj [after [H _]]]]. destruct before; discriminate H.
  - destruct (SelectedInstances3D.matches obj object) eqn:Hm.
    + split.
      * intros [= <-]. exists [], obj, map. repeat split; auto.
        intros e [].
      * intros [before [obj' [after [Heq [Hm' Hbefore]]]]].
        destruct before as [|e before].
        -- injection Heq as <- _ _. reflexivity.
        -- injection Heq as <- _. specialize (Hbefore (i, obj) (or_introl eq_refl)).
           simpl in Hbefore. congruence.
    + rewrite IH. split.
      * intros [before [obj' [after [Heq [Hm' Hbefore]]]]].
        exists ((i, obj) :: before), obj', after. subst map.
        repeat split; auto.
        intros e [<- | Hin]; [exact Hm | apply Hbefore; exact Hin].
      * intros [before [obj' [after [Heq [Hm' Hbefore]]]]].
        destruct before as [|e before].
        -- injection Heq as _ <- _. congruence.
        -- injection Heq as _ ->. exists before, obj', after.
           repeat split; auto.
           intros e' Hin. apply Hbefore. right. exact Hin.
Qed.

(** ** The handler of a completed edit: what it leaves alone *)

Lemma onObjectChanged_not_pending (s : SelectedInstances3D.t)
  (o : THREE.Object3D) (transformType : string)
  (w : SelectedInstances3D.World) :
  THREE.UserData.needsUpdate
    (THREE.Node.userData (SelectedInstances3D.nodes w (THREE.uuid o))) = false ->
  SelectedInstances3D._onObjectChanged s o transformType w = w.
Proof.
  intros H. unfold SelectedInstances3D._onObjectChanged.
  destruct (SelectedInstances3D._findInstanceForObject s o); [|reflexivity].
  rewrite H. reflexivity.
Qed.

Lemma onObjectChanged_clears (s : SelectedInstances3D.t)
  (o : THREE.Object3D) (transformType : string)
  (w : SelectedInstances3D.World) (instance : nat) :
  SelectedInstances3D._findInstanceForObject s o = Some instance ->
  THREE.UserData.needsUpdate
    (THREE.Node.userData
       (SelectedInstances3D.nodes
          (SelectedInstances3D._onObjectChanged s o transformType w)
          (THREE.uuid o))) = false.
Proof.
  intros Hfind.
  destruct (THREE.UserData.needsUpdate
              (THREE.Node.userData (SelectedInstances3D.nodes w (THREE.uuid o))))
    eqn:Hn.
  - rewrite (onObjectChanged_pending s o transformType w Hfind Hn).
    cbv zeta. unfold SelectedInstances3D.onInstanceTransformed,
      SelectedInstances3D.clearNeedsUpdate. simpl.
    rewrite upd_same. reflexivity.
  - rewrite (onObjectChanged_not_pending s o transformType w Hn). exact Hn.
Qed.

(** A pending edit is consumed once: a second call of the handler for
    the same node, with nothing in between, changes nothing (no setter
    is called again, the callback is not called again). *)
Theorem completed_edit_is_consumed_once :
  forall (s : SelectedInstances3D.t) (o : THREE.Object3D)
         (transformType : string) (w : SelectedInstances3D.World),
  SelectedInstances3D._onObjectChanged s o transformType
    (SelectedInstances3D._onObjectChanged s o transformType w)
  = SelectedInstances3D._onObjectChanged s o transformType w.
Proof.
  intros s o transformType w.
  destruct (SelectedInstances3D._findInstanceForObject s o) as [instance|]
    eqn:Hfind.
  - apply onObjectChanged_not_pending.
    apply (onObjectChanged_clears s o transformType w Hfind).
  - unfold SelectedInstances3D._onObjectChanged. rewrite Hfind. reflexivity.
Qed.

Lemma invoke_frame (i : nat) (m : gdInitialInstance.Setter) (v : R)
  (w : SelectedInstances3D.World) :
  SelectedInstances3D.nodes (SelectedInstances3D.invoke i m v w)
  = SelectedInstances3D.nodes w
  /\ (forall j, j <> i ->
        SelectedInstances3D.instances (SelectedInstances3D.invoke i m v w) j
        = SelectedInstances3D.instances w j)
  /\ SelectedInstances3D.calls (SelectedInstances3D.invoke i m v w)
     = SelectedInstances3D.calls w ++ [SelectedInstances3D.Invoke i m v].
Proof.
  unfold SelectedInstances3D.invoke. simpl. repeat split.
  intros j Hj. unfold upd. destruct (Nat.eqb j i) eqn:E; [|reflexivity].
  apply Nat.eqb_eq in E. contradiction.
Qed.

(** A branch of the handler changes no node, no instance but its own,
    and only adds to the calls. *)
Lemma branches_frame (i : nat) (v : THREE.Vector3)
  (w : SelectedInstances3D.World) :
  forall w',
  w' = SelectedInstances3D.apply_translate i v w
  \/ w' = SelectedInstances3D.apply_rotate i v w
  \/ w' = SelectedInstances3D.apply_scale i v w
  \/ w' = w ->
  SelectedInstances3D.nodes w' = SelectedInstances3D.nodes w
  /\ (forall j, j <> i ->
        SelectedInstances3D.instances w' j = SelectedInstances3D.instances w j)
  /\ exists l, SelectedInstances3D.calls w' = SelectedInstances3D.calls w ++ l.
Proof.
  assert (Hstep : forall m x w0,
    (SelectedInstances3D.nodes w0 = SelectedInstances3D.nodes w
     /\ (forall j, j <> i ->
           SelectedInstances3D.instances w0 j
           = SelectedInstances3D.instances w j)
     /\ exists l, SelectedInstances3D.calls w0
                  = SelectedInstances3D.calls w ++ l) ->
    let w1 := SelectedInstances3D.invoke i m x w0 in
    SelectedInstances3D.nodes w1 = SelectedInstances3D.nodes w
    /\ (forall j, j <> i ->
          SelectedInstances3D.instances w1 j
          = SelectedInstances3D.instances w j)
    /\ exists l, SelectedInstances3D.calls w1
                 = SelectedInstances3D.calls w ++ l).
  { intros m x w0 [Hn [Hi [l Hl]]] w1.
    destruct (invoke_frame i m x w0) as [Hn1 [Hi1 Hc1]].
    split; [unfold w1; rewrite Hn1; exact Hn|].
    split.
    - intros j Hj. unfold w1. rewrite (Hi1 j Hj). apply Hi. exact Hj.
    - exists (l ++ [SelectedInstances3D.Invoke i m x]).
      unfold w1. rewrite Hc1, Hl, app_assoc. reflexivity. }
  assert (H0 :
    SelectedInstances3D.nodes w = SelectedInstances3D.nodes w
    /\ (forall j, j <> i ->
          SelectedInstances3D.instances w j = SelectedInstances3D.instances w j)
    /\ exists l, SelectedInstances3D.calls w = SelectedInstances3D.calls w ++ l).
  { repeat split. exists []. rewrite app_nil_r. reflexivity. }
  intros w' [-> | [-> | [-> | ->]]].
  - unfold SelectedInstances3D.apply_translate.
    match goal with |- context [if ?c then _ else _] => destruct c end;
      repeat apply Hstep; exact H0.
  - unfold SelectedInstances3D.apply_rotate.
    repeat match goal with
           | |- context [if ?c then _ else _] => destruct c
           end; repeat apply Hstep; exact H0.
  - unfold SelectedInstances3D.apply_scale.
    match goal with |- context [if ?c && ?d then _ else _] => destruct (c && d) end;
      repeat apply Hstep; exact H0.
  - exact H0.
Qed.

(** The handler of a completed edit changes no instance but the one it
    found for the node, moves no node, keeps the snapshot it read and
    the [userData] of every other node, and only adds to the calls
    already made. *)
Theorem completed_edit_touches_one_instance :
  forall (s : SelectedInstances3D.t) (o : THREE.Object3D)
         (transformType : string) (w : SelectedInstances3D.World),
  let w' := SelectedInstances3D._onObjectChanged s o transformType w in
  let n := SelectedInstances3D.nodes w (THREE.uuid o) in
  let n' := SelectedInstances3D.nodes w' (THREE.uuid o) in
  (forall j, SelectedInstances3D._findInstanceForObject s o <> Some j ->
     SelectedInstances3D.instances w' j = SelectedInstances3D.instances w j)
  /\ (forall k, k <> THREE.uuid o ->
        SelectedInstances3D.nodes w' k = SelectedInstances3D.nodes w k)
  /\ (THREE.Node.position n' = THREE.Node.position n
      /\ THREE.Node.rotation n' = THREE.Node.rotation n
      /\ THREE.Node.scale n' = THREE.Node.scale n)
  /\ (THREE.UserData.position (THREE.Node.userData n')
      = THREE.UserData.position (THREE.Node.userData n)
      /\ THREE.UserData.rotation (THREE.Node.userData n')
         = THREE.UserData.rotation (THREE.Node.userData n)
      /\ THREE.UserData.scale (THREE.Node.userData n')
         = THREE.UserData.scale (THREE.Node.userData n))
  /\ exists l,
       SelectedInstances3D.calls w' = SelectedInstances3D.calls w ++ l.
Proof.
  intros s o transformType w w' n n'.
  assert (Hsame : w' = w ->
    (forall j, SelectedInstances3D._findInstanceForObject s o <> Some j ->
       SelectedInstances3D.instances w' j = SelectedInstances3D.instances w j)
    /\ (forall k, k <> THREE.uuid o ->
          SelectedInstances3D.nodes w' k = SelectedInstances3D.nodes w k)
    /\ (THREE.Node.position n' = THREE.Node.position n
        /\ THREE.Node.rotation n' = THREE.Node.rotation n
        /\ THREE.Node.scale n' = THREE.Node.scale n)
    /\ (THREE.UserData.position (THREE.Node.userData n')
        = THREE.UserData.position (THREE.Node.userData n)
        /\ THREE.UserData.rotation (THREE.Node.userData n')
           = THREE.UserData.rotation (THREE.Node.userData n)
        /\ THREE.UserData.scale (THREE.Node.userData n')
           = THREE.UserData.scale (THREE.Node.userData n))
    /\ exists l,
         SelectedInstances3D.calls w' = SelectedInstances3D.calls w ++ l).
  { intros E. unfold n', n. rewrite E. repeat split.
    exists []. rewrite app_nil_r. reflexivity. }
  destruct (SelectedInstances3D._findInstanceForObject s o) as [i|] eqn:Hfind.
  2:{ apply Hsame. unfold w', SelectedInstances3D._onObjectChanged.
      rewrite Hfind. reflexivity. }
  destruct (THREE.UserData.needsUpdate
              (THREE.Node.userData (SelectedInstances3D.nodes w (THREE.uuid o))))
    eqn:Hn.
  2:{ apply Hsame. apply onObjectChanged_not_pending. exact Hn. }
  clear Hsame.
  pose proof (onObjectChanged_pending s o transformType w Hfind Hn) as E.
  cbv zeta in E. fold w' in E.
  match type of E with
  | _ = SelectedInstances3D.onInstanceTransformed _ _
          (SelectedInstances3D.clearNeedsUpdate _ ?b) =>
      set (wb := b) in E
  end.
  assert (Hb :
    SelectedInstances3D.nodes wb = SelectedInstances3D.nodes w
    /\ (forall j, j <> i ->
          SelectedInstances3D.instances wb j
          = SelectedInstances3D.instances w j)
    /\ exists l, SelectedInstances3D.calls wb
                 = SelectedInstances3D.calls w ++ l).
  { unfold wb.
    destruct (SelectedInstances3D.branch transformType "translate" _) as [p|].
    - apply (@branches_frame i p w). left. reflexivity.
    - destruct (SelectedInstances3D.branch transformType "rotate" _) as [r|].
      + apply (@branches_frame i r w). right. left. reflexivity.
      + destruct (SelectedInstances3D.branch transformType "scale" _) as [sc|].
        * apply (@branches_frame i sc w). right. right. left. reflexivity.
        * apply (@branches_frame i (THREE.mkVector3 0 0 0) w).
          right. right. right. reflexivity. }
  destruct Hb as [Hnodes [Hinst [l Hl]]].
  clearbody wb. unfold n', n. rewrite E.
  unfold SelectedInstances3D.onInstanceTransformed,
    SelectedInstances3D.clearNeedsUpdate. simpl. rewrite Hnodes.
  split.
  { intros j Hj. apply Hinst. intros ->. apply Hj. reflexivity. }
  split.
  { intros k Hk. unfold upd.
    destruct (Nat.eqb k (THREE.uuid o)) eqn:Ek; [|reflexivity].
    apply Nat.eqb_eq in Ek. contradiction. }
  rewrite upd_same. simpl.
  split; [repeat split|]. split; [repeat split|].
  exists (l ++ [SelectedInstances3D.Transformed i transformType]).
  rewrite Hl, app_assoc. reflexivity.
Qed.

(** An edit whose kind is none of 'translate', 'rotate' and 'scale', or
    whose snapshot is missing, calls no setter; the pending flag is
    cleared and the callback is called with that kind all the same. *)
Theorem unknown_edit_is_consumed_without_setter :
  forall (s : SelectedInstances3D.t) (o : THREE.Object3D)
         (transformType : string) (w : SelectedInstances3D.World)
         (instance : nat),
  SelectedInstances3D._findInstanceForObject s o = Some instance ->
  let u := THREE.Node.userData (SelectedInstances3D.nodes w (THREE.uuid o)) in
  THREE.UserData.needsUpdate u = true ->
  (transformType <> "translate"%string \/ THREE.UserData.position u = None) ->
  (transformType <> "rotate"%string \/ THREE.UserData.rotation u = None) ->
  (transformType <> "scale"%string \/ THREE.UserData.scale u = None) ->
  let w' := SelectedInstances3D._onObjectChanged s o transformType w in
  SelectedInstances3D.instances w' = SelectedInstances3D.instances w
  /\ SelectedInstances3D.calls w'
     = SelectedInstances3D.calls w
       ++ [SelectedInstances3D.Transformed instance transformType]
  /\ THREE.UserData.needsUpdate
       (THREE.Node.userData (SelectedInstances3D.nodes w' (THREE.uuid o)))
     = false.
Proof.
  intros s o transformType w instance Hfind u Hn Ht Hr Hs w'.
  assert (Hbranch : forall name snapshot,
    transformType <> name \/ snapshot = None ->
    SelectedInstances3D.branch transformType name snapshot = None).
  { intros name snapshot [Hne | ->]; unfold SelectedInstances3D.branch.
    - apply String.eqb_neq in Hne. rewrite Hne. reflexivity.
    - destruct (String.eqb transformType name); reflexivity. }
  unfold w'. rewrite (onObjectChanged_pending s o transformType w Hfind Hn).
  cbv zeta. fold u.
  rewrite (Hbranch _ _ Ht), (Hbranch _ _ Hr), (Hbranch _ _ Hs).
  unfold SelectedInstances3D.onInstanceTransformed,
    SelectedInstances3D.clearNeedsUpdate. simpl.
  rewrite upd_same. repeat split.
Qed.

Lemma unknown_edit_is_consumed_without_setter_witness :
  let w :=
    Sample.objects
      (Sample.pending Sample.root Sample.ones Sample.origin Sample.ones)
      (Sample.instance 6 8 0 Sample.all) in
  SelectedInstances3D.calls
    (SelectedInstances3D._onObjectChanged Sample.selecting_root Sample.root
       "shear" w)
  = [SelectedInstances3D.Transformed 7 "shear"].
Proof.
  intros w.
  assert (Hne : forall a b : string, String.eqb a b = false -> a <> b).
  { intros a b H. apply String.eqb_neq. exact H. }
  pose proof (@unknown_edit_is_consumed_without_setter Sample.selecting_root
                Sample.root "shear"%string w 7%nat eq_refl eq_refl
                (or_introl (Hne "shear" "translate" eq_refl)%string)
                (or_introl (Hne "shear" "rotate" eq_refl)%string)
                (or_introl (Hne "shear" "scale" eq_refl)%string)) as H.
  cbv zeta in H. destruct H as [_ [Hcalls _]].
  exact (eq_trans Hcalls eq_refl).
Defined.

Ltac split_edit :=
  unfold SelectedInstances3D._onObjectChanged, SelectedInstances3D.branch;
  simpl String.eqb; cbv iota;
  destruct (SelectedInstances3D._findInstanceForObject _ _);
    [|repeat split];
  destruct (THREE.UserData.needsUpdate _); [|repeat split];
  match goal with
  | |- context [match ?snapshot with Some _ => _ | None => _ end] =>
      destruct snapshot
  end;
  unfold SelectedInstances3D.apply_translate, SelectedInstances3D.apply_rotate,
    SelectedInstances3D.apply_scale, SelectedInstances3D.invoke,
    SelectedInstances3D.onInstanceTransformed,
    SelectedInstances3D.clearNeedsUpdate;
  simpl; rewrite ?upd_same; simpl;
  repeat match goal with
         | |- context [if ?c then _ else _] =>
             destruct c; simpl; rewrite ?upd_same; simpl
         end;
  unfold upd;
  match goal with
  | |- context [Nat.eqb ?j ?i] =>
      destruct (Nat.eqb j i) eqn:E;
      [apply Nat.eqb_eq in E; subst j|]
  | _ => idtac
  end;
  simpl; repeat split.

(** The three kinds of edit keep to their own properties: a translate
    edit changes no size and no rotation of any instance, a rotate
    edit no position and no size, a scale edit no position and no
    rotation. *)
Theorem edit_kinds_are_separate :
  forall (s : SelectedInstances3D.t) (o : THREE.Object3D)
         (w : SelectedInstances3D.World) (j : nat),
  let i := SelectedInstances3D.instances w j in
  let after kind :=
    SelectedInstances3D.instances
      (SelectedInstances3D._onObjectChanged s o kind w) j in
  (gdInitialInstance.Width (after "translate"%string) = gdInitialInstance.Width i
   /\ gdInitialInstance.Height (after "translate"%string)
      = gdInitialInstance.Height i
   /\ gdInitialInstance.Depth (after "translate"%string)
      = gdInitialInstance.Depth i
   /\ gdInitialInstance.Angle (after "translate"%string)
      = gdInitialInstance.Angle i
   /\ gdInitialInstance.RotationX (after "translate"%string)
      = gdInitialInstance.RotationX i
   /\ gdInitialInstance.RotationY (after "translate"%string)
      = gdInitialInstance.RotationY i)
  /\ (gdInitialInstance.X (after "rotate"%string) = gdInitialInstance.X i
      /\ gdInitialInstance.Y (after "rotate"%string) = gdInitialInstance.Y i
      /\ gdInitialInstance.Z (after "rotate"%string) = gdInitialInstance.Z i
      /\ gdInitialInstance.Width (after "rotate"%string)
         = gdInitialInstance.Width i
      /\ gdInitialInstance.Height (after "rotate"%string)
         = gdInitialInstance.Height i
      /\ gdInitialInstance.Depth (after "rotate"%string)
         = gdInitialInstance.Depth i)
  /\ (gdInitialInstance.X (after "scale"%string) = gdInitialInstance.X i
      /\ gdInitialInstance.Y (after "scale"%string) = gdInitialInstance.Y i
      /\ gdInitialInstance.Z (after "scale"%string) = gdInitialInstance.Z i
      /\ gdInitialInstance.Angle (after "scale"%string)
         = gdInitialInstance.Angle i
      /\ gdInitialInstance.RotationX (after "scale"%string)
         = gdInitialInstance.RotationX i
      /\ gdInitialInstance.RotationY (after "scale"%string)
         = gdInitialInstance.RotationY i).
Proof.
  intros s o w j i after. unfold after, i.
  split; [|split].
  - split_edit.
  - split_edit.
  - split_edit.
Qed.

(** ** SelectedInstances3D and the widget, in the states the editor reaches *)

(** Of two [updateSelection] calls in a row only the second counts. *)
Theorem updateSelection_last_wins :
  forall (s : SelectedInstances3D.t) (instances1 instances2 : list nat)
         (map1 map2 : SelectedInstances3D.InstanceMap),
  SelectedInstances3D.updateSelection instances2 map2
    (SelectedInstances3D.updateSelection instances1 map1 s)
  = SelectedInstances3D.updateSelection instances2 map2 s.
Proof.
  intros [[g|] sel map md en] instances1 instances2 map1 map2.
  - rewrite !updateSelection_with_gizmo, setObject_setObject. reflexivity.
  - reflexivity.
Qed.

Lemma wired_step (op : Editor.Op) (st : Editor.State) :
  (forall g, SelectedInstances3D._gizmoController (fst st) = Some g ->
     Gizmo3DController._currentMode g
     = SelectedInstances3D._currentMode (fst st)
     /\ THREE.TransformControls.mode (Gizmo3DController._transformControls g)
        = SelectedInstances3D._currentMode (fst st)
     /\ THREE.TransformControls.listeners
          (Gizmo3DController._transformControls g)
        = [THREE.change; THREE.objectChange]) ->
  forall g, SelectedInstances3D._gizmoController (fst (Editor.step op st))
            = Some g ->
    Gizmo3DController._currentMode g
    = SelectedInstances3D._currentMode (fst (Editor.step op st))
    /\ THREE.TransformControls.mode (Gizmo3DController._transformControls g)
       = SelectedInstances3D._currentMode (fst (Editor.step op st))
    /\ THREE.TransformControls.listeners
         (Gizmo3DController._transformControls g)
       = [THREE.change; THREE.objectChange].
Proof.
  destruct st as [[[g0|] sel map md en] w]; simpl; intros H g Hg.
  2:{ destruct op; simpl in Hg; discriminate Hg. }
  destruct (H g0 eq_refl) as [H1 [H2 H3]]. clear H.
  destruct op; simpl in Hg.
  - rewrite updateSelection_with_gizmo in *. simpl in *.
    injection Hg as <-.
    destruct (Nat.eqb (List.length instances) 1 && en);
      [destruct (SelectedInstances3D.get_first _ _)|];
      unfold Gizmo3DController.setObject; simpl;
      try destruct (Gizmo3DController._isEnabled g0); simpl; auto.
  - injection Hg as <-. simpl. auto.
  - injection Hg as <-. simpl. auto.
  - rewrite setEnabled_with_gizmo in *. simpl in *.
    injection Hg as <-.
    destruct enabled; simpl;
      [destruct (Nat.eqb (List.length sel) 1);
         [destruct (SelectedInstances3D.get_first _ _)|]|];
      unfold Gizmo3DController.setObject, Gizmo3DController.setEnabled; simpl;
      try destruct (Gizmo3DController._currentObject g0); simpl; auto.
  - discriminate Hg.
  - injection Hg as <-. simpl. auto.
  - injection Hg as <-. auto.
  - destruct (THREE.TransformControls.listens _ _);
      simpl in Hg; injection Hg as <-; auto.
  - destruct (THREE.TransformControls.listens _ _);
      simpl in Hg; injection Hg as <-; auto.
Qed.

Lemma reachable_wired (st : Editor.State) :
  Editor.reachable st ->
  forall g, SelectedInstances3D._gizmoController (fst st) = Some g ->
    Gizmo3DController._currentMode g
    = SelectedInstances3D._currentMode (fst st)
    /\ THREE.TransformControls.mode (Gizmo3DController._transformControls g)
       = SelectedInstances3D._currentMode (fst st)
    /\ THREE.TransformControls.listeners
         (Gizmo3DController._transformControls g)
       = [THREE.change; THREE.objectChange].
Proof.
  induction 1 as [props w | op st _ IH].
  - simpl. unfold SelectedInstances3D.constructor. simpl.
    destruct (SelectedInstances3D.threeRenderer props),
      (SelectedInstances3D.threeCamera props),
      (SelectedInstances3D.threeScene props); try discriminate.
    intros g [= <-]. repeat split.
  - apply wired_step. exact IH.
Qed.

(** In every state the editor reaches, the mode [getCurrentMode()]
    answers is the mode of the gizmo controller and of its widget, and
    the gizmo listens to both events of the widget as long as it
    exists. *)
Theorem reachable_modes_agree :
  forall (st : Editor.State) (g : Gizmo3DController.t),
  Editor.reachable st ->
  SelectedInstances3D._gizmoController (fst st) = Some g ->
  Gizmo3DController.getCurrentMode g
  = SelectedInstances3D.getCurrentMode (fst st)
  /\ THREE.TransformControls.mode (Gizmo3DController._transformControls g)
     = SelectedInstances3D.getCurrentMode (fst st)
  /\ THREE.TransformControls.listens THREE.change
       (Gizmo3DController._transformControls g) = true
  /\ THREE.TransformControls.listens THREE.objectChange
       (Gizmo3DController._transformControls g) = true.
Proof.
  intros st g Hreach Hg.
  destruct (reachable_wired Hreach Hg) as [H1 [H2 H3]].
  unfold THREE.TransformControls.listens. rewrite H3.
  repeat split; assumption.
Qed.

Lemma reachable_modes_agree_witness :
  exists g,
    SelectedInstances3D._gizmoController
      (SelectedInstances3D.setMode rotate Sample.selecting_root) = Some g
    /\ Gizmo3DController.getCurrentMode g = rotate
    /\ THREE.TransformControls.mode (Gizmo3DController._transformControls g)
       = rotate.
Proof.
  set (w := Sample.objects Sample.fresh_nodes
              (Sample.instance 1 1 1 Sample.all)).
  assert (Hreach :
    Editor.reachable
      (SelectedInstances3D.setMode rotate Sample.selecting_root, w)).
  { exact (Editor.reachable_step (Editor.SetMode rotate)
             (Editor.reachable_step
                (Editor.UpdateSelection [7%nat] [(7%nat, Sample.root)])
                (Editor.reachable_step (Editor.SetEnabled true)
                   (Editor.reachable_new Sample.full_props w)))). }
  destruct (SelectedInstances3D._gizmoController
              (SelectedInstances3D.setMode rotate Sample.selecting_root))
    as [g|] eqn:Hg; [|discriminate Hg].
  exists g. split; [reflexivity|].
  destruct (@reachable_modes_agree _ g Hreach Hg) as [H1 [H2 _]].
  split; [exact H1 | exact H2].
Defined.

(** When the policy designates no node (the gizmo is disabled, the
    selection is not a single instance, or the instance has no node in
    the map), the widget's events and moves change nothing: no node, no
    instance, no call. *)
Theorem idle_gizmo_ignores_widget :
  forall (st : Editor.State) (op : Editor.Op),
  Editor.reachable st ->
  Editor.expected_object (fst st) = None ->
  (op = Editor.Change \/ op = Editor.ObjectChange
   \/ exists position rotation scale_,
        op = Editor.WidgetMoves position rotation scale_) ->
  Editor.step op st = st.
Proof.
  intros [s w] op Hreach Hnone Hop. simpl in Hnone.
  destruct (SelectedInstances3D._gizmoController s) as [g|] eqn:Hg.
  - destruct (reachable_consistent Hreach Hg) as [_ [Hcur Hatt]].
    simpl in Hcur, Hatt. rewrite Hnone in Hcur, Hatt.
    unfold Gizmo3DController.attached in Hatt.
    destruct w as [nodes instances calls].
    destruct Hop as [-> | [-> | [p [r [sc ->]]]]]; simpl; rewrite Hg.
    + destruct (THREE.TransformControls.listens _ _); [|reflexivity].
      unfold Gizmo3DController._onControlsChange. rewrite Hcur. reflexivity.
    + destruct (THREE.TransformControls.listens _ _); [|reflexivity].
      unfold Gizmo3DController._onObjectChange. rewrite Hcur. reflexivity.
    + unfold Editor.widget_moves. rewrite Hatt. reflexivity.
  - destruct Hop as [-> | [-> | [p [r [sc ->]]]]]; simpl; rewrite Hg;
      reflexivity.
Qed.

Lemma idle_gizmo_ignores_widget_witness :
  let st :=
    (SelectedInstances3D.setEnabled false Sample.selecting_root,
     Sample.objects
       (Sample.pending Sample.root Sample.ones Sample.origin Sample.ones)
       (Sample.instance 6 8 0 Sample.all)) in
  Editor.step Editor.ObjectChange st = st.
Proof.
  intros st.
  assert (Hreach : Editor.reachable st).
  { exact (Editor.reachable_step (Editor.SetEnabled false)
             (Editor.reachable_step
                (Editor.UpdateSelection [7%nat] [(7%nat, Sample.root)])
                (Editor.reachable_step (Editor.SetEnabled true)
                   (Editor.reachable_new Sample.full_props (snd st))))). }
  exact (@idle_gizmo_ignores_widget st Editor.ObjectChange Hreach eq_refl
           (or_intror (or_introl eq_refl))).
Defined.

(** [dispose()] is final: after it, whatever is called and whatever the
    widget dispatches, [isAvailable()] answers false, and no node, no
    instance and no call is added or changed. *)
Theorem dispose_is_final :
  forall (st : Editor.State) (ops : list Editor.Op),
  let st' := Editor.run ops (Editor.step Editor.Dispose st) in
  SelectedInstances3D.isAvailable (fst st') = false
  /\ snd st' = snd st.
Proof.
  intros [s w] ops st'.
  destruct (run_without_gizmo ops
              (Editor.step Editor.Dispose (s, w)) eq_refl) as [Hg Hw].
  fold st' in Hg, Hw. unfold SelectedInstances3D.isAvailable.
  rewrite Hg. split; [reflexivity | exact Hw].
Qed.

Lemma branches_calls (i : nat) (v : THREE.Vector3)
  (w : SelectedInstances3D.World) :
  forall w',
  w' = SelectedInstances3D.apply_translate i v w
  \/ w' = SelectedInstances3D.apply_rotate i v w
  \/ w' = SelectedInstances3D.apply_scale i v w
  \/ w' = w ->
  exists l, SelectedInstances3D.calls w' = SelectedInstances3D.calls w ++ l
            /\ forall e, In e l ->
                 exists m x, e = SelectedInstances3D.Invoke i m x.
Proof.
  assert (Hstep : forall m x w0,
    (exists l, SelectedInstances3D.calls w0 = SelectedInstances3D.calls w ++ l
               /\ forall e, In e l ->
                    exists m x, e = SelectedInstances3D.Invoke i m x) ->
    exists l, SelectedInstances3D.calls (SelectedInstances3D.invoke i m x w0)
              = SelectedInstances3D.calls w ++ l
              /\ forall e, In e l ->
                   exists m x, e = SelectedInstances3D.Invoke i m x).
  { intros m x w0 [l [Hl Hin]].
    exists (l ++ [SelectedInstances3D.Invoke i m x]). split.
    - unfold SelectedInstances3D.invoke. simpl. rewrite Hl, app_assoc.
      reflexivity.
    - intros e He. apply in_app_or in He. destruct He as [He | [<- | []]].
      + apply Hin. exact He.
      + exists m, x. reflexivity. }
  assert (H0 :
    exists l, SelectedInstances3D.calls w = SelectedInstances3D.calls w ++ l
              /\ forall e, In e l ->
                   exists m x, e = SelectedInstances3D.Invoke i m x).
  { exists []. split; [rewrite app_nil_r; reflexivity | intros e []]. }
  intros w' [-> | [-> | [-> | ->]]].
  - unfold SelectedInstances3D.apply_translate.
    match goal with |- context [if ?c then _ else _] => destruct c end;
      repeat apply Hstep; exact H0.
  - unfold SelectedInstances3D.apply_rotate.
    repeat match goal with
           | |- context [if ?c then _ else _] => destruct c
           end; repeat apply Hstep; exact H0.
  - unfold SelectedInstances3D.apply_scale.
    match goal with |- context [if ?c && ?d then _ else _] => destruct (c && d) end;
      repeat apply Hstep; exact H0.
  - exact H0.
Qed.

Lemma Map_get_In (map : SelectedInstances3D.InstanceMap) (i : nat)
  (o : THREE.Object3D) :
  SelectedInstances3D.Map_get map i = Some o -> In (i, o) map.
Proof.
  induction map as [|[k obj] map IH]; simpl; [discriminate|].
  destruct (Nat.eqb k i) eqn:E.
  - intros [= ->]. apply Nat.eqb_eq in E. subst k. left. reflexivity.
  - intros H. right. apply IH. exact H.
Qed.

(** In a state the editor reaches where the policy designates a node,
    an edit of the widget (its 'change' followed by its
    'objectChange') is always taken: an instance of the map is found
    for the node, only setters of that instance are called, the
    callback is called once, last, with that instance and the mode
    [getCurrentMode()] answers, and the node is left with no pending
    edit. *)
Theorem widget_edit_is_applied_and_reported :
  forall (st : Editor.State) (o : THREE.Object3D),
  Editor.reachable st ->
  SelectedInstances3D.isAvailable (fst st) = true ->
  Editor.expected_object (fst st) = Some o ->
  let st' := Editor.run [Editor.Change; Editor.ObjectChange] st in
  fst st' = fst st
  /\ THREE.UserData.needsUpdate
       (THREE.Node.userData
          (SelectedInstances3D.nodes (snd st') (THREE.uuid o))) = false
  /\ exists instance l,
       SelectedInstances3D._findInstanceForObject (fst st) o = Some instance
       /\ SelectedInstances3D.calls (snd st')
          = SelectedInstances3D.calls (snd st) ++ l
            ++ [SelectedInstances3D.Transformed instance
                  (mode_string (SelectedInstances3D.getCurrentMode (fst st)))]
       /\ forall e, In e l ->
            exists m x, e = SelectedInstances3D.Invoke instance m x.
Proof.
  intros [s w] o Hreach Havail Hexp st'. simpl in Havail, Hexp.
  unfold SelectedInstances3D.isAvailable in Havail.
  destruct (SelectedInstances3D._gizmoController s) as [g|] eqn:Hg;
    [clear Havail | discriminate Havail].
  destruct (reachable_consistent Hreach Hg) as [_ [Hcur _]].
  destruct (reachable_wired Hreach Hg) as [Hmode [_ Hls]].
  simpl in Hcur, Hmode. rewrite Hexp in Hcur.
  (* an instance is found for the node *)
  assert (Hin : exists i0,
    In (i0, o) (SelectedInstances3D._instanceToObjectMap s)).
  { apply expected_object_spec in Hexp. destruct Hexp as [_ [i0 [_ Hget]]].
    exists i0. apply Map_get_In. exact Hget. }
  destruct Hin as [i0 Hin].
  destruct (SelectedInstances3D._findInstanceForObject s o) as [i|] eqn:Hfind.
  2:{ exfalso.
      pose proof (proj2 (find_entry_none _ o) Hfind i0 o Hin) as Hm.
      unfold SelectedInstances3D.matches, THREE.same in Hm.
      rewrite Nat.eqb_refl in Hm. discriminate Hm. }
  (* the two events *)
  assert (Hl1 : THREE.TransformControls.listens THREE.change
                  (Gizmo3DController._transformControls g) = true)
    by (unfold THREE.TransformControls.listens; rewrite Hls; reflexivity).
  assert (Hl2 : THREE.TransformControls.listens THREE.objectChange
                  (Gizmo3DController._transformControls g) = true)
    by (unfold THREE.TransformControls.listens; rewrite Hls; reflexivity).
  unfold st', Editor.run. simpl. rewrite Hg, Hl1. simpl. rewrite Hg, Hl2.
  simpl.
  unfold Gizmo3DController._onObjectChange. rewrite Hcur, Hmode.
  set (w1 := SelectedInstances3D.mkWorld _ _ _).
  assert (Hn1 : THREE.UserData.needsUpdate
                  (THREE.Node.userData
                     (SelectedInstances3D.nodes w1 (THREE.uuid o))) = true).
  { unfold w1. simpl. unfold Gizmo3DController._onControlsChange,
      Gizmo3DController._updateObject3DFromControls.
    rewrite Hcur. rewrite upd_same. reflexivity. }
  assert (Hc1 : SelectedInstances3D.calls w1 = SelectedInstances3D.calls w)
    by reflexivity.
  split; [reflexivity|].
  split; [apply (onObjectChanged_clears s o _ w1 Hfind)|].
  exists i.
  rewrite (onObjectChanged_pending s o _ w1 Hfind Hn1). cbv zeta.
  match goal with
  | |- context [SelectedInstances3D.clearNeedsUpdate _ ?b] => set (wb := b)
  end.
  assert (Hb : exists l,
    SelectedInstances3D.calls wb = SelectedInstances3D.calls w1 ++ l
    /\ forall e, In e l -> exists m x, e = SelectedInstances3D.Invoke i m x).
  { unfold wb.
    destruct (SelectedInstances3D.branch _ "translate" _) as [p|].
    - apply (@branches_calls i p w1). left. reflexivity.
    - destruct (SelectedInstances3D.branch _ "rotate" _) as [r|].
      + apply (@branches_calls i r w1). right. left. reflexivity.
      + destruct (SelectedInstances3D.branch _ "scale" _) as [sc|].
        * apply (@branches_calls i sc w1). right. right. left. reflexivity.
        * apply (@branches_calls i (THREE.mkVector3 0 0 0) w1).
          right. right. right. reflexivity. }
  destruct Hb as [l [Hl Hin']]. exists l.
  split; [exact Hfind|]. split; [|exact Hin'].
  clearbody wb. simpl. rewrite Hl, Hc1, app_assoc. reflexivity.
Qed.

Lemma widget_edit_is_applied_and_reported_witness :
  let st :=
    (Sample.selecting_root,
     Sample.objects Sample.fresh_nodes (Sample.instance 6 8 0 Sample.plain3d)) in
  let st' := Editor.run [Editor.Change; Editor.ObjectChange] st in
  THREE.UserData.needsUpdate
    (THREE.Node.userData
       (SelectedInstances3D.nodes (snd st') (THREE.uuid Sample.root))) = false
  /\ SelectedInstances3D._findInstanceForObject (fst st) Sample.root
     = Some 7%nat.
Proof.
  intros st st'.
  assert (Hreach : Editor.reachable st).
  { exact (Editor.reachable_step
             (Editor.UpdateSelection [7%nat] [(7%nat, Sample.root)])
             (Editor.reachable_step (Editor.SetEnabled true)
                (Editor.reachable_new Sample.full_props (snd st)))). }
  pose proof (@widget_edit_is_applied_and_reported st Sample.root Hreach
                eq_refl eq_refl) as H.
  cbv zeta in H. destruct H as [_ [Hn _]].
  split; [exact Hn | reflexivity].
Defined.

(** ** FreeCameraController: limits, drags, keys *)

Lemma clamp_within (lo hi v : R) :
  lo <= hi -> lo <= FreeCameraController.clamp lo hi v <= hi.
Proof.
  intros H. unfold FreeCameraController.clamp, Rmax, Rmin.
  destruct (Rle_dec hi v); destruct (Rle_dec lo _); lra.
Qed.

(** An input that changes the zoom target or the polar angle target
    leaves the new value within the limits of the controller, wherever
    the old value was. *)
Theorem changed_targets_are_clamped :
  forall (s : FreeCameraController.t) (i : FreeCameraController.Input),
  FreeCameraController._minDistance s <= FreeCameraController._maxDistance s ->
  FreeCameraController._minPolarAngle s
  <= FreeCameraController._maxPolarAngle s ->
  let s' := fst (FreeCameraController.handle i s) in
  (FreeCameraController._targetDistance s'
   <> FreeCameraController._targetDistance s ->
   FreeCameraController._minDistance s
   <= FreeCameraController._targetDistance s'
   <= FreeCameraController._maxDistance s)
  /\ (FreeCameraController.phi (FreeCameraController._sphericalTarget s')
      <> FreeCameraController.phi (FreeCameraController._sphericalTarget s) ->
      FreeCameraController._minPolarAngle s
      <= FreeCameraController.phi (FreeCameraController._sphericalTarget s')
      <= FreeCameraController._maxPolarAngle s).
Proof.
  intros s i Hd Hp s'. unfold s'.
  destruct i as [e|e|e|e|e|e]; simpl;
    unfold FreeCameraController._onMouseDown,
      FreeCameraController._onMouseMove, FreeCameraController._onMouseUp,
      FreeCameraController._onWheel, FreeCameraController._onKeyDown,
      FreeCameraController._onKeyUp, FreeCameraController._pan;
    repeat match goal with
           | |- context [if ?c then _ else _] => destruct c; simpl
           end;
    split; intros Hne; try (exfalso; apply Hne; reflexivity);
    apply clamp_within; assumption.
Qed.

Lemma changed_targets_are_clamped_witness :
  let s0 := FreeCameraController.enable Sample.controller in
  let s1 :=
    fst (FreeCameraController.handle
           (FreeCameraController.Wheel (FreeCameraController.mkWheelEvent 1000000))
           s0) in
  FreeCameraController._minDistance s0 <= FreeCameraController._maxDistance s0
  /\ FreeCameraController._minPolarAngle s0
     <= FreeCameraController._maxPolarAngle s0
  /\ (FreeCameraController._targetDistance s1
      <> FreeCameraController._targetDistance s0 ->
      0.1 <= FreeCameraController._targetDistance s1 <= 1000).
Proof.
  intros s0 s1.
  assert (Hd : FreeCameraController._minDistance s0
               <= FreeCameraController._maxDistance s0) by (simpl; lra).
  assert (Hp : FreeCameraController._minPolarAngle s0
               <= FreeCameraController._maxPolarAngle s0)
    by (simpl; pose proof PI_RGT_0; lra).
  pose proof (@changed_targets_are_clamped s0
                (FreeCameraController.Wheel
                   (FreeCameraController.mkWheelEvent 1000000)) Hd Hp) as H.
  cbv zeta in H. destruct H as [H _].
  split; [exact Hd|]. split; [exact Hp|]. exact H.
Defined.

Section CameraSequences.

Variable applyQuaternion :
  THREE.Vector3 -> FreeCameraController.Quaternion -> THREE.Vector3.
Variable lookAt :
  FreeCameraController.Camera -> THREE.Vector3 -> FreeCameraController.Camera.

Local Abbreviation update := (FreeCameraController.update applyQuaternion lookAt).
Local Abbreviation updates := (FreeCameraController.updates applyQuaternion lookAt).
Local Abbreviation call1 := (CameraCalls.call applyQuaternion lookAt).
Local Abbreviation calls_of := (CameraCalls.calls applyQuaternion lookAt).

Lemma call_keeps_limits (c : CameraCalls.Call) (s : FreeCameraController.t) :
  FreeCameraController._minDistance s <= FreeCameraController._maxDistance s ->
  FreeCameraController._minPolarAngle s
  <= FreeCameraController._maxPolarAngle s ->
  CameraCalls.within_limits s ->
  CameraCalls.within_limits (call1 c s)
  /\ CameraCalls.same_limits s (call1 c s).
Proof.
  intros Hd Hp [Htd [Hdist [Hpt Hpc]]].
  pose proof (fun v => clamp_within v Hd) as Cd.
  pose proof (fun v => clamp_within v Hp) as Cp.
  unfold CameraCalls.within_limits, CameraCalls.same_limits.
  destruct c as [[e|e|e|e|e|e] | | | | | x y z]; simpl;
    unfold FreeCameraController._onMouseDown,
      FreeCameraController._onMouseMove, FreeCameraController._onMouseUp,
      FreeCameraController._onWheel, FreeCameraController._onKeyDown,
      FreeCameraController._onKeyUp, FreeCameraController._pan,
      FreeCameraController.update, FreeCameraController._updateKeyboardMovement,
      FreeCameraController.enable, FreeCameraController.disable,
      FreeCameraController.setTarget, FreeCameraController.dampingFactor;
    repeat match goal with
           | |- context [if ?c then _ else _] => destruct c; simpl
           end;
    repeat split; auto; try apply Cd; try apply Cp; try lra.
Qed.

(** Once the zoom and the polar angle, current and target, are within
    the limits of the controller, they stay within them whatever
    inputs, updates and calls of [enable], [disable] and [setTarget]
    follow. *)
Theorem limits_are_kept :
  forall (l : list CameraCalls.Call) (s : FreeCameraController.t),
  FreeCameraController._minDistance s <= FreeCameraController._maxDistance s ->
  FreeCameraController._minPolarAngle s
  <= FreeCameraController._maxPolarAngle s ->
  CameraCalls.within_limits s ->
  CameraCalls.within_limits (calls_of l s).
Proof.
  induction l as [|c l IH]; intros s Hd Hp Hs; [exact Hs|].
  simpl. destruct (call_keeps_limits c Hd Hp Hs) as [Hs' [E1 [E2 [E3 E4]]]].
  apply IH; [rewrite E1, E2 | rewrite E3, E4 |]; assumption.
Qed.

(** While opposite keys are held together, or none is held, the keyboard
    moves nothing: [update()] leaves the pan target where it is. *)
Theorem opposite_keys_cancel :
  forall (s : FreeCameraController.t),
  FreeCameraController._keys s "KeyW" = FreeCameraController._keys s "KeyS" ->
  FreeCameraController._keys s "KeyA" = FreeCameraController._keys s "KeyD" ->
  FreeCameraController._keys s "KeyQ" = FreeCameraController._keys s "KeyE" ->
  FreeCameraController._updateKeyboardMovement applyQuaternion s = s
  /\ FreeCameraController._target (update s) = FreeCameraController._target s.
Proof.
  intros s Hws Had Hqe.
  assert (Hlen : FreeCameraController.length (FreeCameraController.moveVector s)
                 = 0).
  { unfold FreeCameraController.moveVector, FreeCameraController.length.
    rewrite Hws, Had, Hqe.
    destruct (FreeCameraController._keys s "KeyS"),
      (FreeCameraController._keys s "KeyD"),
      (FreeCameraController._keys s "KeyE"); simpl;
      match goal with
      | |- sqrt ?e = 0 => replace e with 0 by ring; apply sqrt_0
      end. }
  assert (Hk : FreeCameraController._updateKeyboardMovement applyQuaternion s
               = s).
  { unfold FreeCameraController._updateKeyboardMovement.
    destruct (negb (FreeCameraController._enableKeys s)); [reflexivity|].
    rewrite Hlen. destruct (Rlt_dec 0 0); [lra | reflexivity]. }
  split; [exact Hk|].
  unfold FreeCameraController.update.
  destruct (negb (FreeCameraController._isEnabled s)); [reflexivity|].
  rewrite Hk. reflexivity.
Qed.

Lemma updates_target (c : FreeCameraController.Coordinate) (n : nat) :
  forall s : FreeCameraController.t,
  FreeCameraController.target c (updates n s) = FreeCameraController.target c s.
Proof.
  induction n as [|n IH]; intros s; [reflexivity|].
  simpl. rewrite IH. apply update_target.
Qed.

(** Repeated calls of [update()] on an enabled controller bring each of
    theta, phi and distance as close to its target as one wishes. *)
Theorem updates_converge :
  forall (s : FreeCameraController.t) (c : FreeCameraController.Coordinate)
         (eps : R),
  FreeCameraController._isEnabled s = true ->
  0 < eps ->
  exists N, forall n, (N <= n)%nat ->
    Rabs (FreeCameraController.target c s
          - FreeCameraController.current c (updates n s)) < eps.
Proof.
  intros s c eps Hen Heps.
  set (gap := FreeCameraController.target c s - FreeCameraController.current c s).
  assert (Hgap : forall n,
    FreeCameraController.target c s
    - FreeCameraController.current c (updates n s)
    = (1 - FreeCameraController.dampingFactor) ^ n * gap).
  { intros n. rewrite <- (updates_target c n s).
    apply updates_gap. exact Hen. }
  destruct (Req_dec gap 0) as [Hz | Hnz].
  - exists 0%nat. intros n _. rewrite Hgap, Hz, Rmult_0_r, Rabs_R0. exact Heps.
  - assert (Hpos : 0 < Rabs gap) by (apply Rabs_pos_lt; exact Hnz).
    assert (Hq : Rabs (1 - FreeCameraController.dampingFactor) < 1).
    { unfold FreeCameraController.dampingFactor.
      rewrite Rabs_right; lra. }
    destruct (pow_lt_1_zero _ Hq (eps / Rabs gap)) as [N HN].
    { apply Rdiv_lt_0_compat; assumption. }
    exists N. intros n Hn. rewrite Hgap, Rabs_mult.
    specialize (HN n Hn).
    apply (Rmult_lt_compat_r (Rabs gap)) in HN; [|exact Hpos].
    replace (eps / Rabs gap * Rabs gap) with eps in HN by (field; lra).
    exact HN.
Qed.

(** [lookAt] turns the camera and does not move it. *)
Hypothesis lookAt_keeps_position :
  forall c target,
  FreeCameraController.position (lookAt c target)
  = FreeCameraController.position c.

(** After [update()] on an enabled controller the camera sits on the
    sphere around the pan target whose radius is the current distance:
    its offset from the target is the current spherical position, and
    its distance to the target is the absolute value of [_distance]. *)
Theorem camera_is_on_the_sphere :
  forall (s : FreeCameraController.t),
  FreeCameraController._isEnabled s = true ->
  let s' := update s in
  FreeCameraController.radius (FreeCameraController._spherical s')
  = FreeCameraController._distance s'
  /\ FreeCameraController.sub
       (FreeCameraController.position (FreeCameraController._camera s'))
       (FreeCameraController._target s')
     = FreeCameraController.setFromSpherical
         (FreeCameraController._spherical s')
  /\ FreeCameraController.length
       (FreeCameraController.sub
          (FreeCameraController.position (FreeCameraController._camera s'))
          (FreeCameraController._target s'))
     = Rabs (FreeCameraController._distance s').
Proof.
  intros s Hen s'.
  assert (Hoff :
    FreeCameraController.sub
      (FreeCameraController.position (FreeCameraController._camera s'))
      (FreeCameraController._target s')
    = FreeCameraController.setFromSpherical
        (FreeCameraController._spherical s')).
  { unfold s', FreeCameraController.update. rewrite Hen. simpl.
    rewrite lookAt_keeps_position. simpl.
    unfold FreeCameraController.sub, FreeCameraController.add,
      FreeCameraController.setFromSpherical. simpl.
    f_equal; ring. }
  assert (Hrad :
    FreeCameraController.radius (FreeCameraController._spherical s')
    = FreeCameraController._distance s').
  { unfold s', FreeCameraController.update. rewrite Hen. reflexivity. }
  split; [exact Hrad|]. split; [exact Hoff|].
  rewrite Hoff. unfold FreeCameraController.length,
    FreeCameraController.setFromSpherical. simpl. rewrite Hrad.
  set (r := FreeCameraController._distance s').
  set (p := FreeCameraController.phi (FreeCameraController._spherical s')).
  set (t := FreeCameraController.theta (FreeCameraController._spherical s')).
  rewrite <- sqrt_Rsqr_abs. f_equal. unfold Rsqr.
  pose proof (sin2_cos2 p) as Hp. pose proof (sin2_cos2 t) as Ht.
  unfold Rsqr in Hp, Ht.
  replace (sin p * r * sin t * (sin p * r * sin t)
           + cos p * r * (cos p * r)
           + sin p * r * cos t * (sin p * r * cos t))
    with (r * r * (sin p * sin p * (sin t * sin t + cos t * cos t)
                   + cos p * cos p)) by ring.
  rewrite Ht, Rmult_1_r, Hp. ring.
Qed.

End CameraSequences.

Lemma sample_distance :
  FreeCameraController._distance Sample.controller = 10
  /\ FreeCameraController._targetDistance Sample.controller = 10.
Proof.
  assert (H : sqrt ((0 - 0) * (0 - 0) + (0 - 0) * (0 - 0)
                    + (10 - 0) * (10 - 0)) = 10).
  { replace ((0 - 0) * (0 - 0) + (0 - 0) * (0 - 0) + (10 - 0) * (10 - 0))
      with (10 * 10) by ring.
    apply sqrt_square. lra. }
  split; exact H.
Defined.

Lemma limits_are_kept_witness :
  CameraCalls.within_limits
    (CameraCalls.calls Sample.applyQuaternion Sample.lookAt
       [CameraCalls.Enable;
        CameraCalls.Input
          (FreeCameraController.Wheel (FreeCameraController.mkWheelEvent 120));
        CameraCalls.Update]
       Sample.controller).
Proof.
  apply (@limits_are_kept Sample.applyQuaternion Sample.lookAt).
  - simpl. lra.
  - simpl. pose proof PI_RGT_0. lra.
  - destruct sample_distance as [Hd Ht].
    unfold CameraCalls.within_limits. rewrite Hd, Ht. simpl.
    pose proof PI_RGT_0. lra.
Defined.

Lemma opposite_keys_cancel_witness :
  let s := FreeCameraController.enable Sample.controller in
  FreeCameraController._target
    (FreeCameraController.update Sample.applyQuaternion Sample.lookAt s)
  = FreeCameraController._target s.
Proof.
  intros s.
  exact (proj2 (@opposite_keys_cancel Sample.applyQuaternion Sample.lookAt s
                  eq_refl eq_refl eq_refl)).
Defined.

Lemma updates_converge_witness :
  let down := FreeCameraController.mkMouseEvent 0 0 0 in
  let move := FreeCameraController.mkMouseEvent 0 (-200) 0 in
  let s0 := FreeCameraController.enable Sample.controller in
  let s1 := fst (FreeCameraController.handle (FreeCameraController.MouseDown down) s0) in
  let s2 := fst (FreeCameraController.handle (FreeCameraController.MouseMove move) s1) in
  exists N, forall n, (N <= n)%nat ->
    Rabs (FreeCameraController.target FreeCameraController.Theta s2
          - FreeCameraController.current FreeCameraController.Theta
              (FreeCameraController.updates Sample.applyQuaternion
                 Sample.lookAt n s2)) < 1 / 1000.
Proof.
  intros down move s0 s1 s2.
  apply (@updates_converge Sample.applyQuaternion Sample.lookAt s2
           FreeCameraController.Theta (1 / 1000) eq_refl).
  lra.
Defined.

Lemma camera_is_on_the_sphere_witness :
  let s := FreeCameraController.enable Sample.controller in
  let s' := FreeCameraController.update Sample.applyQuaternion Sample.lookAt s in
  FreeCameraController.length
    (FreeCameraController.sub
       (FreeCameraController.position (FreeCameraController._camera s'))
       (FreeCameraController._target s'))
  = Rabs (FreeCameraController._distance s').
Proof.
  intros s s'.
  pose proof (@camera_is_on_the_sphere Sample.applyQuaternion Sample.lookAt
                (fun c target => eq_refl) s eq_refl) as H.
  cbv zeta in H. exact (proj2 (proj2 H)).
Defined.

(** ** FreeCameraController: enabling, dragging, panning, focusing *)

(** [enable()] and [disable()] are idempotent, and on a controller that
    is disabled and has no listener registered, [disable()] after
    [enable()] gives back the state as it was: every listener that was
    registered is removed. *)
Theorem enable_disable_round_trip :
  forall (s : FreeCameraController.t),
  FreeCameraController.enable (FreeCameraController.enable s)
  = FreeCameraController.enable s
  /\ FreeCameraController.disable (FreeCameraController.disable s)
     = FreeCameraController.disable s
  /\ (FreeCameraController._isEnabled s = false ->
      FreeCameraController.listeners s = [] ->
      FreeCameraController.listeners (FreeCameraController.enable s) <> []
      /\ FreeCameraController.disable (FreeCameraController.enable s) = s).
Proof.
  intros s. split; [|split].
  - unfold FreeCameraController.enable.
    destruct (FreeCameraController._isEnabled s) eqn:E; simpl;
      [rewrite E|]; reflexivity.
  - unfold FreeCameraController.disable.
    destruct (FreeCameraController._isEnabled s) eqn:E; simpl;
      [|rewrite E]; reflexivity.
  - intros Hdis Hls.
    destruct s as [cam tg md mb lp sp spt d td ks kms ek er ez ep rs zs ps
                     mind maxd minp maxp en ls].
    simpl in Hdis, Hls. subst en ls.
    unfold FreeCameraController.enable, FreeCameraController.disable. simpl.
    destruct ek; simpl; split; (discriminate || reflexivity).
Qed.

Lemma enable_disable_round_trip_witness :
  FreeCameraController.disable (FreeCameraController.enable Sample.controller)
  = Sample.controller.
Proof.
  destruct (@enable_disable_round_trip Sample.controller) as [_ [_ H]].
  exact (proj2 (H eq_refl eq_refl)).
Defined.

(** After a mouse up, a mouse move changes nothing: a drag ends with
    the button. *)
Theorem move_after_mouse_up_is_ignored :
  forall (s : FreeCameraController.t)
         (up move : FreeCameraController.MouseEvent),
  let s' := fst (FreeCameraController.handle (FreeCameraController.MouseUp up) s) in
  FreeCameraController.handle (FreeCameraController.MouseMove move) s'
  = (s', false).
Proof.
  intros s up move. simpl.
  unfold FreeCameraController._onMouseUp, FreeCameraController._onMouseMove.
  destruct (FreeCameraController._isEnabled s) eqn:E; simpl; rewrite E;
    reflexivity.
Qed.

(** While the left button is held and rotation is enabled, the theta the
    camera heads to depends only on where the pointer is, not on the
    path it took: two moves in a row give the theta of the second
    alone. *)
Theorem orbit_theta_is_path_independent :
  forall (s : FreeCameraController.t)
         (e1 e2 : FreeCameraController.MouseEvent),
  FreeCameraController._isEnabled s = true ->
  FreeCameraController._isMouseDown s = true ->
  FreeCameraController._mouseButton s = 0%Z ->
  FreeCameraController._enableRotate s = true ->
  let move e s := fst (FreeCameraController.handle (FreeCameraController.MouseMove e) s) in
  FreeCameraController.theta
    (FreeCameraController._sphericalTarget (move e2 (move e1 s)))
  = FreeCameraController.theta
      (FreeCameraController._sphericalTarget (move e2 s))
  /\ FreeCameraController.theta
       (FreeCameraController._sphericalTarget (move e2 s))
     = FreeCameraController.theta (FreeCameraController._sphericalTarget s)
       - (FreeCameraController.clientX e2
          - fst (FreeCameraController._lastMousePosition s))
         * FreeCameraController._rotateSpeed s * 0.01.
Proof.
  intros s e1 e2 Hen Hdown Hbtn Hrot move. unfold move. simpl.
  unfold FreeCameraController._onMouseMove.
  rewrite Hen, Hdown, Hbtn, Hrot. simpl.
  rewrite Hen, Hdown, Hbtn, Hrot. simpl.
  split; ring.
Qed.

Lemma orbit_theta_is_path_independent_witness :
  let down := FreeCameraController.mkMouseEvent 0 0 0 in
  let s :=
    fst (FreeCameraController.handle (FreeCameraController.MouseDown down)
           (FreeCameraController.enable Sample.controller)) in
  let move e s := fst (FreeCameraController.handle (FreeCameraController.MouseMove e) s) in
  FreeCameraController.theta
    (FreeCameraController._sphericalTarget
       (move (FreeCameraController.mkMouseEvent 0 (-200) 50)
          (move (FreeCameraController.mkMouseEvent 0 300 (-70)) s)))
  = 2.
Proof.
  intros down s move.
  destruct (@orbit_theta_is_path_independent s
              (FreeCameraController.mkMouseEvent 0 300 (-70))
              (FreeCameraController.mkMouseEvent 0 (-200) 50)
              eq_refl eq_refl eq_refl eq_refl) as [H1 H2].
  cbv zeta in H1, H2. unfold move. rewrite H1, H2. simpl. lra.
Defined.

(** Panning adds up: a pan by (dx1, dy1) followed by a pan by (dx2, dy2)
    is the pan by (dx1 + dx2, dy1 + dy2), and it moves nothing but the
    pan target. *)
Theorem pan_is_additive :
  forall (s : FreeCameraController.t) (dx1 dy1 dx2 dy2 : R),
  FreeCameraController._pan dx2 dy2 (FreeCameraController._pan dx1 dy1 s)
  = FreeCameraController._pan (dx1 + dx2) (dy1 + dy2) s
  /\ FreeCameraController._pan dx1 dy1 s
     = FreeCameraController.set_target
         (FreeCameraController._target (FreeCameraController._pan dx1 dy1 s)) s.
Proof.
  intros s dx1 dy1 dx2 dy2. split; [|reflexivity].
  unfold FreeCameraController._pan, FreeCameraController.set_target. simpl.
  f_equal.
  unfold FreeCameraController.add, FreeCameraController.multiplyScalar. simpl.
  f_equal; ring.
Qed.

(** The distance given to [focusOn] has no effect: the state it leaves
    is the one [focusOn] without a distance leaves, since the distance
    is computed again from the camera and the new target. *)
Theorem focusOn_ignores_distance :
  forall (setFromVector3 : THREE.Vector3 -> FreeCameraController.Spherical)
         (s : FreeCameraController.t) (position : THREE.Vector3) (distance : R),
  FreeCameraController.focusOn setFromVector3 position (Some distance) s
  = FreeCameraController.focusOn setFromVector3 position None s.
Proof.
  intros setFromVector3 s position distance. reflexivity.
Qed.

(** [focusOn] leaves the camera at rest: theta, phi and distance are at
    their targets, so the [update()] that follows changes none of the
    three. *)
Theorem focusOn_leaves_camera_at_rest :
  forall (applyQuaternion :
            THREE.Vector3 -> FreeCameraController.Quaternion -> THREE.Vector3)
         (lookAt :
            FreeCameraController.Camera -> THREE.Vector3 ->
            FreeCameraController.Camera)
         (setFromVector3 : THREE.Vector3 -> FreeCameraController.Spherical)
         (s : FreeCameraController.t) (position : THREE.Vector3)
         (distance : option R) (c : FreeCameraController.Coordinate),
  let s' := FreeCameraController.focusOn setFromVector3 position distance s in
  FreeCameraController.current c s' = FreeCameraController.target c s'
  /\ FreeCameraController.current c
       (FreeCameraController.update applyQuaternion lookAt s')
     = FreeCameraController.current c s'.
Proof.
  intros applyQuaternion lookAt setFromVector3 s position distance c s'.
  assert (Hrest : FreeCameraController.current c s'
                  = FreeCameraController.target c s').
  { unfold s'. destruct distance, c; reflexivity. }
  split; [exact Hrest|].
  destruct (FreeCameraController._isEnabled s') eqn:Hen.
  - rewrite (update_current applyQuaternion lookAt c s' Hen), Hrest. ring.
  - unfold FreeCameraController.update. rewrite Hen. reflexivity.
Qed.

(** ** Editor3DToolbar *)

(** Of the three mode buttons exactly one is shown selected, and it is
    the one whose click asks for the mode the toolbar was given. *)
Theorem toolbar_selects_current_mode :
  forall (p : Editor3DToolbar.Props),
  map Editor3DToolbar.onClick
    (filter
       (fun b =>
          match Editor3DToolbar.onClick b with
          | Editor3DToolbar.onGizmoModeChange _ =>
              Editor3DToolbar.is_true (Editor3DToolbar.selected b)
          | _ => false
          end)
       (Editor3DToolbar.buttons (Editor3DToolbar.render p)))
  = [Editor3DToolbar.onGizmoModeChange (Editor3DToolbar.gizmoMode p)].
Proof.
  intros [m fc ge sp]. destruct m; reflexivity.
Qed.

(** The buttons that toggle the gizmo and the free camera can always be
    clicked; the three mode buttons and the space button are disabled
    exactly when the gizmo is. *)
Theorem toolbar_disables_with_gizmo :
  forall (p : Editor3DToolbar.Props) (b : Editor3DToolbar.IconButton),
  In b (Editor3DToolbar.buttons (Editor3DToolbar.render p)) ->
  Editor3DToolbar.is_true (Editor3DToolbar.disabled b)
  = match Editor3DToolbar.onClick b with
    | Editor3DToolbar.onGizmoToggle | Editor3DToolbar.onFreeCameraToggle =>
        false
    | Editor3DToolbar.onGizmoModeChange _
    | Editor3DToolbar.onToggleGizmoSpace =>
        negb (Editor3DToolbar.gizmoEnabled p)
    end.
Proof.
  intros [m fc ge sp] b Hin. simpl in Hin.
  destruct Hin as [<- | [<- | [<- | [<- | [<- | [<- | []]]]]]];
    simpl; destruct ge; reflexivity.
Qed.

Lemma toolbar_disables_with_gizmo_witness :
  let p := Editor3DToolbar.mkProps rotate false false local in
  let b :=
    Editor3DToolbar.mkIconButton (Some true)
      (Editor3DToolbar.onGizmoModeChange rotate) (Some true) "small"
      Editor3DToolbar.RotateIcon in
  In b (Editor3DToolbar.buttons (Editor3DToolbar.render p))
  /\ Editor3DToolbar.is_true (Editor3DToolbar.disabled b) = true.
Proof.
  intros p b.
  assert (Hin : In b (Editor3DToolbar.buttons (Editor3DToolbar.render p))).
  { simpl. right. right. left. reflexivity. }
  split; [exact Hin|].
  exact (@toolbar_disables_with_gizmo p b Hin).
Defined.
